(** * RAFT3D: the replicated state machine of the printer inventory

    A shallow embedding of [pkg/models/models.go] and
    [internal/fsm/fsm.go], and the properties of the apply engine, of the
    read accessors and of snapshot/restore that follow from the code;
    then the handling of the list of cluster nodes in the raft server and
    in the main program.

    Conventions of the embedding:
    - Go's [int] is the 64-bit two's complement integer [int] (the width
      of [int] on 64-bit platforms); arithmetic wraps around.
    - Go's [string] and [[]byte] are [string].
    - Go's [error] is [option string]: [nil_err] or a message.
    - a [map[string]*T] is a [gmap string addr] together with a heap
      [gmap addr T]: the store holds pointers, several holders of one
      pointer see the same record.
    - [encoding/json] is an interface ([JSON]); every definition and
      theorem is parametric in it. *)

From stdpp Require Import base decidable option strings gmap fin_maps pretty.
From Stdlib Require Import ZArith Lia Bool Ascii.

Open Scope string_scope.
Open Scope Z_scope.

(** ** Machine integers *)

Definition int_min : Z := - 2 ^ 63.
Definition int_max : Z := 2 ^ 63 - 1.

Definition int_fits (z : Z) : bool := (int_min <=? z) && (z <=? int_max).

Record int : Type := MkInt { int_val : Z; int_range : int_fits int_val = true }.

(** Two's complement wrap-around to 64 bits. *)
Definition wrap (z : Z) : Z := (z + 2 ^ 63) mod 2 ^ 64 - 2 ^ 63.

(** The range proof is recomputed so that closed integers evaluate to a
    literal. The second branch is never taken ([int_of_Z_val]). *)
Definition int_of_Z (z : Z) : int :=
  match bool_dec (int_fits (wrap z)) true with
  | left e => MkInt (wrap z) e
  | right _ => MkInt 0 eq_refl
  end.

Definition int_zero : int := MkInt 0 eq_refl.

(** [a - b] on [int]. *)
Definition int_sub (a b : int) : int := int_of_Z (int_val a - int_val b).

(** ** Errors *)

Definition error : Type := option string.
Definition nil_err : error := None.
(** [fmt.Errorf] with its arguments already formatted into [msg]. *)
Definition Errorf (msg : string) : error := Some msg.

(** [%d] of [fmt]. *)
Definition fmt_d (i : int) : string := pretty (int_val i).

(** ** Package models *)

Definition StatusQueued : string := "Queued".
Definition StatusRunning : string := "Running".
Definition StatusDone : string := "Done".
Definition StatusCancelled : string := "Cancelled".

(** [m[k]] on a [map[string]bool]: a missing key reads [false]. *)
Definition index_bool (m : gmap string bool) (k : string) : bool :=
  default false (m !! k).

Module Printer.

Record t : Type := Make { ID : string; Company : string; Model : string }.

Definition Validate (p : t) : error :=
  if decide (ID p = EmptyString) then Errorf "printer ID cannot be empty"
  else if decide (Company p = EmptyString) then Errorf "printer company cannot be empty"
  else if decide (Model p = EmptyString) then Errorf "printer model cannot be empty"
  else nil_err.

End Printer.

Module Filament.

Record t : Type := Make {
  ID : string;
  Type_ : string;
  Color : string;
  TotalWeightInGrams : int;
  RemainingWeightInGrams : int
}.

Definition validTypes : gmap string bool :=
  <["PLA" := true]> (<["PETG" := true]> (<["ABS" := true]> (<["TPU" := true]> ∅))).

Definition Validate (f : t) : error :=
  if decide (ID f = EmptyString) then Errorf "filament ID cannot be empty"
  else if negb (index_bool validTypes (Type_ f)) then
    Errorf "filament type must be one of: PLA, PETG, ABS, TPU"
  else if decide (Color f = EmptyString) then Errorf "filament color cannot be empty"
  else if int_val (TotalWeightInGrams f) <=? 0 then Errorf "total weight must be positive"
  else if (int_val (RemainingWeightInGrams f) <? 0)
          || (int_val (RemainingWeightInGrams f) >? int_val (TotalWeightInGrams f))
  then Errorf "remaining weight must be between 0 and total weight"
  else nil_err.

(** [f.RemainingWeightInGrams = r] on a copy of the record. *)
Definition set_RemainingWeightInGrams (f : t) (r : int) : t :=
  Make (ID f) (Type_ f) (Color f) (TotalWeightInGrams f) r.

End Filament.

Module PrintJob.

Record t : Type := Make {
  ID : string;
  PrinterID : string;
  FilamentID : string;
  Filepath : string;
  PrintWeightInGrams : int;
  Status : string
}.

(** [j.Status = s]. *)
Definition set_Status (j : t) (s : string) : t :=
  Make (ID j) (PrinterID j) (FilamentID j) (Filepath j) (PrintWeightInGrams j) s.

Definition validStatuses : gmap string bool :=
  <[StatusQueued := true]> (<[StatusRunning := true]>
    (<[StatusDone := true]> (<[StatusCancelled := true]> ∅))).

Definition Validate (j : t) : error :=
  if decide (ID j = EmptyString) then Errorf "print job ID cannot be empty"
  else if decide (PrinterID j = EmptyString) then Errorf "printer ID cannot be empty"
  else if decide (FilamentID j = EmptyString) then Errorf "filament ID cannot be empty"
  else if decide (Filepath j = EmptyString) then Errorf "filepath cannot be empty"
  else if int_val (PrintWeightInGrams j) <=? 0 then Errorf "print weight must be positive"
  else if negb (index_bool validStatuses (Status j)) then
    Errorf "status must be one of: Queued, Running, Done, Cancelled"
  else nil_err.

Definition validTransitions : gmap string (gmap string bool) :=
  <[StatusQueued := <[StatusRunning := true]> (<[StatusCancelled := true]> ∅)]>
    (<[StatusRunning := <[StatusDone := true]> (<[StatusCancelled := true]> ∅)]> ∅).

Definition ValidateTransition (j : t) (newStatus : string) : error :=
  let rejected :=
    Errorf ("invalid status transition from " +:+ Status j +:+ " to " +:+ newStatus) in
  match validTransitions !! Status j with
  | Some transitions => if index_bool transitions newStatus then nil_err else rejected
  | None => rejected
  end.

End PrintJob.

(** ** Package fsm *)

Record Command : Type := {
  Op : string;
  EntityType : string;
  Payload : string  (* json.RawMessage *)
}.

Definition EntityPrinter : string := "printer".
Definition EntityFilament : string := "filament".
Definition EntityPrintJob : string := "print_job".

Definition OpCreate : string := "create".
Definition OpUpdate : string := "update".
Definition OpDelete : string := "delete".

Module PrintJobStatusChange.
Record t : Type := Make { ID : string; Status : string }.
End PrintJobStatusChange.

(** The part of [raft.Log] that [Apply] reads. *)
Record Log : Type := { Data : string }.

(** The [Snapshot] struct. [FSM.Snapshot] copies every record into a
    variable of its own and the decoder hands [Restore] records of its
    own, so no record of a [Snapshot] is shared with anything else: the
    three maps hold the records themselves. *)
Record Snapshot : Type := {
  Printers : gmap string Printer.t;
  Filaments : gmap string Filament.t;
  PrintJobs : gmap string PrintJob.t
}.

(** *** encoding/json *)

(** The result of decoding into a fresh variable of type [T]: the value,
    or the decoder's error. *)
Inductive decoded (T : Type) : Type :=
  | Decoded (v : T)
  | DecodeError (err : string).
Arguments Decoded {T} v.
Arguments DecodeError {T} err.

(** What the code uses of [encoding/json], one function per target type
    of [json.Unmarshal]. *)
Class JSON : Type := {
  unmarshalCommand : string -> decoded Command;
  unmarshalPrinter : string -> decoded Printer.t;
  unmarshalFilament : string -> decoded Filament.t;
  unmarshalPrintJob : string -> decoded PrintJob.t;
  unmarshalStatusChange : string -> decoded PrintJobStatusChange.t;
  unmarshalString : string -> decoded string;
  (* json.Marshal(s) for s *Snapshot *)
  marshalSnapshot : Snapshot -> decoded string;
  (* json.NewDecoder(rc).Decode(&snapshot) on a stream holding [rc] *)
  decodeSnapshot : string -> decoded Snapshot
}.

(** *** Memory *)

(** A pointer. *)
Definition addr : Type := positive.

(** The records that pointers of the three types point to. *)
Record Heap : Type := {
  printerAt : gmap addr Printer.t;
  filamentAt : gmap addr Filament.t;
  printJobAt : gmap addr PrintJob.t
}.

(** [&x] for a variable [x] that escapes: a new cell holding [x]. *)
Definition alloc {T : Type} (h : gmap addr T) (x : T) : addr * gmap addr T :=
  let a := fresh (dom h) in (a, <[a := x]> h).

(** The three maps of the [Store]. Its mutex is left out: the calls are
    taken one at a time, each from the state the one before left. *)
Record Store : Type := {
  printers : gmap string addr;
  filaments : gmap string addr;
  printJobs : gmap string addr
}.

Definition NewStore : Store :=
  {| printers := ∅; filaments := ∅; printJobs := ∅ |}.

(** An [FSM] with the memory its pointers live in. *)
Record FSM : Type := { store : Store; heap : Heap }.

(** [NewFSM()], called when the memory is [h]. *)
Definition NewFSM (h : Heap) : FSM := {| store := NewStore; heap := h |}.

(** What a call does: it returns (no error, or an error), or it panics.
    The one panic of this code is the dereference of a nil pointer; a
    pointer that is in no heap plays that role. *)
Inductive outcome : Type :=
  | Return (err : error)
  | Panic.

(** [f.store.printers[id] = &printer] *)
Definition store_printer (f : FSM) (id : string) (printer : Printer.t) : FSM :=
  let (a, h) := alloc (printerAt (heap f)) printer in
  {| store := {| printers := <[id := a]> (printers (store f));
                 filaments := filaments (store f);
                 printJobs := printJobs (store f) |};
     heap := {| printerAt := h;
                filamentAt := filamentAt (heap f);
                printJobAt := printJobAt (heap f) |} |}.

(** [f.store.filaments[id] = &filament] *)
Definition store_filament (f : FSM) (id : string) (filament : Filament.t) : FSM :=
  let (a, h) := alloc (filamentAt (heap f)) filament in
  {| store := {| printers := printers (store f);
                 filaments := <[id := a]> (filaments (store f));
                 printJobs := printJobs (store f) |};
     heap := {| printerAt := printerAt (heap f);
                filamentAt := h;
                printJobAt := printJobAt (heap f) |} |}.

(** [f.store.printJobs[id] = &printJob] *)
Definition store_printJob (f : FSM) (id : string) (printJob : PrintJob.t) : FSM :=
  let (a, h) := alloc (printJobAt (heap f)) printJob in
  {| store := {| printers := printers (store f);
                 filaments := filaments (store f);
                 printJobs := <[id := a]> (printJobs (store f)) |};
     heap := {| printerAt := printerAt (heap f);
                filamentAt := filamentAt (heap f);
                printJobAt := h |} |}.

(** [delete(f.store.printers, id)] and its two siblings. *)
Definition delete_printer (f : FSM) (id : string) : FSM :=
  {| store := {| printers := delete id (printers (store f));
                 filaments := filaments (store f);
                 printJobs := printJobs (store f) |};
     heap := heap f |}.

Definition delete_filament (f : FSM) (id : string) : FSM :=
  {| store := {| printers := printers (store f);
                 filaments := delete id (filaments (store f));
                 printJobs := printJobs (store f) |};
     heap := heap f |}.

Definition delete_printJob (f : FSM) (id : string) : FSM :=
  {| store := {| printers := printers (store f);
                 filaments := filaments (store f);
                 printJobs := delete id (printJobs (store f)) |};
     heap := heap f |}.

(** [*p = x] for a filament pointer and for a print job pointer. *)
Definition write_filament (f : FSM) (p : addr) (x : Filament.t) : FSM :=
  {| store := store f;
     heap := {| printerAt := printerAt (heap f);
                filamentAt := <[p := x]> (filamentAt (heap f));
                printJobAt := printJobAt (heap f) |} |}.

Definition write_printJob (f : FSM) (p : addr) (x : PrintJob.t) : FSM :=
  {| store := store f;
     heap := {| printerAt := printerAt (heap f);
                filamentAt := filamentAt (heap f);
                printJobAt := <[p := x]> (printJobAt (heap f)) |} |}.

(** The snapshot sink of the consensus engine, as far as [Persist] drives
    it: the bytes written so far, and what [Write] and [Close] will
    answer (these depend on the disk, not on this program). *)
Record SnapshotSink : Type := {
  written : string;
  write_err : error;
  close_err : error;
  cancelled : bool;
  closed : bool
}.

Definition sink_Write (sink : SnapshotSink) (data : string) : SnapshotSink * error :=
  match write_err sink with
  | Some e => (sink, Some e)
  | None =>
      ({| written := written sink +:+ data; write_err := write_err sink;
          close_err := close_err sink; cancelled := cancelled sink;
          closed := closed sink |}, nil_err)
  end.

Definition sink_Cancel (sink : SnapshotSink) : SnapshotSink :=
  {| written := written sink; write_err := write_err sink;
     close_err := close_err sink; cancelled := true; closed := closed sink |}.

Definition sink_Close (sink : SnapshotSink) : SnapshotSink * error :=
  ({| written := written sink; write_err := write_err sink;
      close_err := close_err sink; cancelled := cancelled sink;
      closed := true |}, close_err sink).

(** The loop of [FSM.Snapshot] over one collection:
    [for k, v := range m { x := *v; copies[k] = &x }].
    [None] is the panic of [*v] on a nil pointer. *)
Definition copy_records {T : Type} (h : gmap addr T) (m : gmap string addr)
  : option (gmap string T) :=
  map_fold (fun k v acc =>
              match acc, h !! v with
              | Some copies, Some x => Some (<[k := x]> copies)
              | _, _ => None
              end) (Some ∅) m.

(** The cells the decoder allocates for one decoded collection, and the
    map of pointers to them. *)
Definition place_records {T : Type} (h : gmap addr T) (m : gmap string T)
  : gmap addr T * gmap string addr :=
  map_fold (fun k x acc =>
              let (a, h') := alloc (fst acc) x in (h', <[k := a]> (snd acc)))
           (h, ∅) m.

Section fsm.
Context {json : JSON}.

Definition applyPrinterCommand (f : FSM) (cmd : Command) : FSM * outcome :=
  if decide (Op cmd = OpCreate) then
    match unmarshalPrinter (Payload cmd) with
    | DecodeError err => (f, Return (Errorf ("failed to unmarshal printer: " +:+ err)))
    | Decoded printer =>
        match Printer.Validate printer with
        | Some err => (f, Return (Some err))
        | None => (store_printer f (Printer.ID printer) printer, Return nil_err)
        end
    end
  else if decide (Op cmd = OpUpdate) then
    match unmarshalPrinter (Payload cmd) with
    | DecodeError err => (f, Return (Errorf ("failed to unmarshal printer: " +:+ err)))
    | Decoded printer =>
        match Printer.Validate printer with
        | Some err => (f, Return (Some err))
        | None =>
            match printers (store f) !! Printer.ID printer with
            | None => (f, Return (Errorf ("printer not found: " +:+ Printer.ID printer)))
            | Some _ => (store_printer f (Printer.ID printer) printer, Return nil_err)
            end
        end
    end
  else if decide (Op cmd = OpDelete) then
    match unmarshalString (Payload cmd) with
    | DecodeError err => (f, Return (Errorf ("failed to unmarshal ID: " +:+ err)))
    | Decoded id =>
        match printers (store f) !! id with
        | None => (f, Return (Errorf ("printer not found: " +:+ id)))
        | Some _ => (delete_printer f id, Return nil_err)
        end
    end
  else (f, Return (Errorf ("unknown printer operation: " +:+ Op cmd))).

Definition applyFilamentCommand (f : FSM) (cmd : Command) : FSM * outcome :=
  if decide (Op cmd = OpCreate) then
    match unmarshalFilament (Payload cmd) with
    | DecodeError err => (f, Return (Errorf ("failed to unmarshal filament: " +:+ err)))
    | Decoded filament =>
        match Filament.Validate filament with
        | Some err => (f, Return (Some err))
        | None => (store_filament f (Filament.ID filament) filament, Return nil_err)
        end
    end
  else if decide (Op cmd = OpUpdate) then
    match unmarshalFilament (Payload cmd) with
    | DecodeError err => (f, Return (Errorf ("failed to unmarshal filament: " +:+ err)))
    | Decoded filament =>
        match Filament.Validate filament with
        | Some err => (f, Return (Some err))
        | None =>
            match filaments (store f) !! Filament.ID filament with
            | None => (f, Return (Errorf ("filament not found: " +:+ Filament.ID filament)))
            | Some _ => (store_filament f (Filament.ID filament) filament, Return nil_err)
            end
        end
    end
  else if decide (Op cmd = OpDelete) then
    match unmarshalString (Payload cmd) with
    | DecodeError err => (f, Return (Errorf ("failed to unmarshal ID: " +:+ err)))
    | Decoded id =>
        match filaments (store f) !! id with
        | None => (f, Return (Errorf ("filament not found: " +:+ id)))
        | Some _ => (delete_filament f id, Return nil_err)
        end
    end
  else (f, Return (Errorf ("unknown filament operation: " +:+ Op cmd))).

(** The deduction of [applyPrintJobCommand], lines 234-237:
    [filament.RemainingWeightInGrams -= printJob.PrintWeightInGrams],
    then the clamp at zero. *)
Definition deduct (filament : Filament.t) (printJob : PrintJob.t) : Filament.t :=
  let filament1 :=
    Filament.set_RemainingWeightInGrams filament
      (int_sub (Filament.RemainingWeightInGrams filament)
               (PrintJob.PrintWeightInGrams printJob)) in
  if int_val (Filament.RemainingWeightInGrams filament1) <? 0
  then Filament.set_RemainingWeightInGrams filament1 int_zero
  else filament1.

Definition applyPrintJobCommand (f : FSM) (cmd : Command) : FSM * outcome :=
  if decide (Op cmd = OpCreate) then
    match unmarshalPrintJob (Payload cmd) with
    | DecodeError err => (f, Return (Errorf ("failed to unmarshal print job: " +:+ err)))
    | Decoded printJob0 =>
        let printJob := PrintJob.set_Status printJob0 StatusQueued in
        match PrintJob.Validate printJob with
        | Some err => (f, Return (Some err))
        | None =>
            match printers (store f) !! PrintJob.PrinterID printJob with
            | None =>
                (f, Return (Errorf ("printer not found: " +:+ PrintJob.PrinterID printJob)))
            | Some _ =>
                match filaments (store f) !! PrintJob.FilamentID printJob with
                | None =>
                    (f, Return (Errorf ("filament not found: "
                                        +:+ PrintJob.FilamentID printJob)))
                | Some pf =>
                    match filamentAt (heap f) !! pf with
                    | None => (f, Panic)
                    | Some filament =>
                        if int_val (PrintJob.PrintWeightInGrams printJob)
                           >? int_val (Filament.RemainingWeightInGrams filament)
                        then
                          (f, Return (Errorf
                             ("insufficient filament: required "
                              +:+ fmt_d (PrintJob.PrintWeightInGrams printJob)
                              +:+ " g, available "
                              +:+ fmt_d (Filament.RemainingWeightInGrams filament)
                              +:+ " g")))
                        else (store_printJob f (PrintJob.ID printJob) printJob, Return nil_err)
                    end
                end
            end
        end
    end
  else if decide (Op cmd = OpUpdate) then
    match unmarshalStatusChange (Payload cmd) with
    | DecodeError err =>
        (f, Return (Errorf ("failed to unmarshal status change: " +:+ err)))
    | Decoded statusChange =>
        match printJobs (store f) !! PrintJobStatusChange.ID statusChange with
        | None =>
            (f, Return (Errorf ("print job not found: "
                                +:+ PrintJobStatusChange.ID statusChange)))
        | Some pj =>
            match printJobAt (heap f) !! pj with
            | None => (f, Panic)
            | Some printJob =>
                match PrintJob.ValidateTransition printJob
                        (PrintJobStatusChange.Status statusChange) with
                | Some err => (f, Return (Some err))
                | None =>
                    let done (f1 : FSM) : FSM * outcome :=
                      (write_printJob f1 pj
                         (PrintJob.set_Status printJob
                            (PrintJobStatusChange.Status statusChange)),
                       Return nil_err) in
                    if decide (PrintJobStatusChange.Status statusChange = StatusDone) then
                      match filaments (store f) !! PrintJob.FilamentID printJob with
                      | None =>
                          (f, Return (Errorf ("filament not found: "
                                              +:+ PrintJob.FilamentID printJob)))
                      | Some pf =>
                          match filamentAt (heap f) !! pf with
                          | None => (f, Panic)
                          | Some filament =>
                              done (write_filament f pf (deduct filament printJob))
                          end
                      end
                    else done f
                end
            end
        end
    end
  else if decide (Op cmd = OpDelete) then
    match unmarshalString (Payload cmd) with
    | DecodeError err => (f, Return (Errorf ("failed to unmarshal ID: " +:+ err)))
    | Decoded id =>
        match printJobs (store f) !! id with
        | None => (f, Return (Errorf ("print job not found: " +:+ id)))
        | Some _ => (delete_printJob f id, Return nil_err)
        end
    end
  else (f, Return (Errorf ("unknown print job operation: " +:+ Op cmd))).

Definition Apply (f : FSM) (log : Log) : FSM * outcome :=
  match unmarshalCommand (Data log) with
  | DecodeError err => (f, Return (Errorf ("failed to unmarshal command: " +:+ err)))
  | Decoded cmd =>
      if decide (EntityType cmd = EntityPrinter) then applyPrinterCommand f cmd
      else if decide (EntityType cmd = EntityFilament) then applyFilamentCommand f cmd
      else if decide (EntityType cmd = EntityPrintJob) then applyPrintJobCommand f cmd
      else (f, Return (Errorf ("unknown entity type: " +:+ EntityType cmd)))
  end.

(** [FSM.Snapshot]; [None] is a panic. The error is always [nil_err]. *)
Definition FSM_Snapshot (f : FSM) : option (Snapshot * error) :=
  match copy_records (printerAt (heap f)) (printers (store f)),
        copy_records (filamentAt (heap f)) (filaments (store f)),
        copy_records (printJobAt (heap f)) (printJobs (store f)) with
  | Some ps, Some fs, Some js =>
      Some ({| Printers := ps; Filaments := fs; PrintJobs := js |}, nil_err)
  | _, _, _ => None
  end.

(** [FSM.Restore] on a stream that holds [rc]. *)
Definition Restore (f : FSM) (rc : string) : FSM * error :=
  match decodeSnapshot rc with
  | DecodeError err => (f, Errorf ("failed to decode snapshot: " +:+ err))
  | Decoded snapshot =>
      let (hp, ps) := place_records (printerAt (heap f)) (Printers snapshot) in
      let (hf, fs) := place_records (filamentAt (heap f)) (Filaments snapshot) in
      let (hj, js) := place_records (printJobAt (heap f)) (PrintJobs snapshot) in
      ({| store := {| printers := ps; filaments := fs; printJobs := js |};
          heap := {| printerAt := hp; filamentAt := hf; printJobAt := hj |} |}, nil_err)
  end.

(** [Snapshot.Persist] *)
Definition Persist (s : Snapshot) (sink : SnapshotSink) : SnapshotSink * error :=
  match marshalSnapshot s with
  | DecodeError err =>
      (sink_Cancel sink, Errorf ("failed to marshal snapshot: " +:+ err))
  | Decoded data =>
      match sink_Write sink data with
      | (sink1, Some err) =>
          (sink_Cancel sink1, Errorf ("failed to write snapshot: " +:+ err))
      | (sink1, None) => sink_Close sink1
      end
  end.

(** The commands of a log applied in order, with what each [Apply]
    returned. *)
Fixpoint run (f : FSM) (logs : list Log) : FSM * list outcome :=
  match logs with
  | [] => (f, [])
  | log :: rest =>
      let (f1, o) := Apply f log in
      let (f2, os) := run f1 rest in
      (f2, o :: os)
  end.

End fsm.

(** *** Read accessors

    Each returns what the map holds: pointers. The enumeration order of a
    Go map is unspecified; [map_to_list] fixes one. *)

Definition GetPrinters (s : Store) : list addr := (map_to_list (printers s)).*2.
Definition GetPrinter (s : Store) (id : string) : option addr := printers s !! id.
Definition GetFilaments (s : Store) : list addr := (map_to_list (filaments s)).*2.
Definition GetFilament (s : Store) (id : string) : option addr := filaments s !! id.
Definition GetPrintJobs (s : Store) : list addr := (map_to_list (printJobs s)).*2.
Definition GetPrintJob (s : Store) (id : string) : option addr := printJobs s !! id.

(** [FSM.Store] *)
Definition FSM_Store (f : FSM) : Store := store f.

(** ** A reference instance of the JSON interface

    A reader and a writer for the JSON texts the commands and snapshots
    are made of: objects, arrays, strings with the two-character escapes,
    integers, [true], [false] and [null]. It is what the examples run on;
    no theorem depends on it. *)

Module RefJSON.

#[local] Unset Elimination Schemes.
Inductive value : Type :=
  | VNull
  | VBool (b : bool)
  | VNum (z : Z)
  | VStr (s : string)
  | VArr (items : list value)
  | VObj (members : list (string * value)).
#[local] Set Elimination Schemes.

Definition quote : ascii := "034"%char.
Definition backslash : ascii := "\"%char.

Definition is_space (c : ascii) : bool :=
  bool_decide (c = " "%char) || bool_decide (c = "009"%char)
  || bool_decide (c = "010"%char) || bool_decide (c = "013"%char).

Fixpoint skip_space (s : string) : string :=
  match s with
  | String c rest => if is_space c then skip_space rest else s
  | EmptyString => s
  end.

Definition digit_of (c : ascii) : option Z :=
  let n := Z.of_N (Ascii.N_of_ascii c) in
  if (48 <=? n) && (n <=? 57) then Some (n - 48) else None.

(** The digits at the head of [s], most significant first. *)
Fixpoint read_digits (acc : Z) (seen : bool) (s : string) : option (Z * string) :=
  match s with
  | String c rest =>
      match digit_of c with
      | Some d => read_digits (10 * acc + d) true rest
      | None => if seen then Some (acc, s) else None
      end
  | EmptyString => if seen then Some (acc, s) else None
  end.

Definition read_number (s : string) : option (Z * string) :=
  match s with
  | String "-" rest =>
      match read_digits 0 false rest with
      | Some (z, rest') => Some (- z, rest')
      | None => None
      end
  | _ => read_digits 0 false s
  end.

Definition unescape (c : ascii) : option ascii :=
  if bool_decide (c = quote) then Some quote
  else if bool_decide (c = backslash) then Some backslash
  else if bool_decide (c = "/"%char) then Some "/"%char
  else if bool_decide (c = "n"%char) then Some "010"%char
  else if bool_decide (c = "t"%char) then Some "009"%char
  else if bool_decide (c = "r"%char) then Some "013"%char
  else if bool_decide (c = "b"%char) then Some "008"%char
  else if bool_decide (c = "f"%char) then Some "012"%char
  else None.

(** The characters of a string literal after its opening quote. *)
Fixpoint read_chars (s : string) : option (string * string) :=
  match s with
  | EmptyString => None
  | String c rest =>
      if bool_decide (c = quote) then Some (EmptyString, rest)
      else if bool_decide (c = backslash) then
        match rest with
        | String e rest' =>
            match unescape e, read_chars rest' with
            | Some c', Some (str, rest'') => Some (String c' str, rest'')
            | _, _ => None
            end
        | EmptyString => None
        end
      else
        match read_chars rest with
        | Some (str, rest') => Some (String c str, rest')
        | None => None
        end
  end.

Definition read_keyword (kw : string) (v : value) (s : string) : option (value * string) :=
  if String.prefix kw s then Some (v, String.substring (String.length kw)
                                                    (String.length s - String.length kw) s)
  else None.

Fixpoint read_value (fuel : nat) (s : string) : option (value * string) :=
  match fuel with
  | O => None
  | S fuel' =>
      match skip_space s with
      | String "{" rest =>
          match skip_space rest with
          | String "}" rest' => Some (VObj [], rest')
          | _ =>
              match read_members fuel' rest with
              | Some (ms, rest') => Some (VObj ms, rest')
              | None => None
              end
          end
      | String "[" rest =>
          match skip_space rest with
          | String "]" rest' => Some (VArr [], rest')
          | _ =>
              match read_items fuel' rest with
              | Some (vs, rest') => Some (VArr vs, rest')
              | None => None
              end
          end
      | String "t" _ => read_keyword "true" (VBool true) (skip_space s)
      | String "f" _ => read_keyword "false" (VBool false) (skip_space s)
      | String "n" _ => read_keyword "null" VNull (skip_space s)
      | String c rest =>
          if bool_decide (c = quote) then
            match read_chars rest with
            | Some (str, rest') => Some (VStr str, rest')
            | None => None
            end
          else
            match read_number (String c rest) with
            | Some (z, rest') => Some (VNum z, rest')
            | None => None
            end
      | EmptyString => None
      end
  end
with read_members (fuel : nat) (s : string) : option (list (string * value) * string) :=
  match fuel with
  | O => None
  | S fuel' =>
      match skip_space s with
      | String c rest =>
          if bool_decide (c = quote) then
            match read_chars rest with
            | Some (key, rest1) =>
                match skip_space rest1 with
                | String ":" rest2 =>
                    match read_value fuel' rest2 with
                    | Some (v, rest3) =>
                        match skip_space rest3 with
                        | String "," rest4 =>
                            match read_members fuel' rest4 with
                            | Some (ms, rest5) => Some ((key, v) :: ms, rest5)
                            | None => None
                            end
                        | String "}" rest4 => Some ([(key, v)], rest4)
                        | _ => None
                        end
                    | None => None
                    end
                | _ => None
                end
            | None => None
            end
          else None
      | EmptyString => None
      end
  end
with read_items (fuel : nat) (s : string) : option (list value * string) :=
  match fuel with
  | O => None
  | S fuel' =>
      match read_value fuel' s with
      | Some (v, rest) =>
          match skip_space rest with
          | String "," rest1 =>
              match read_items fuel' rest1 with
              | Some (vs, rest2) => Some (v :: vs, rest2)
              | None => None
              end
          | String "]" rest1 => Some ([v], rest1)
          | _ => None
          end
      | None => None
      end
  end.

(** A whole text: one value, then only white space. *)
Definition read (s : string) : decoded value :=
  match read_value (S (String.length s)) s with
  | Some (v, rest) =>
      match skip_space rest with
      | EmptyString => Decoded v
      | _ => DecodeError "invalid character after top-level value"
      end
  | None => DecodeError "invalid JSON"
  end.

(** The first value of a stream, as a [json.Decoder] reads it. *)
Definition read_first (s : string) : decoded value :=
  match read_value (S (String.length s)) s with
  | Some (v, _) => Decoded v
  | None => DecodeError "invalid JSON"
  end.

Fixpoint escape (s : string) : string :=
  match s with
  | EmptyString => EmptyString
  | String c rest =>
      if bool_decide (c = quote) || bool_decide (c = backslash)
      then String backslash (String c (escape rest))
      else String c (escape rest)
  end.

Definition write_string (s : string) : string :=
  String quote (escape s) +:+ String quote EmptyString.

Definition join (sep : string) (parts : list string) : string :=
  match parts with
  | [] => EmptyString
  | p :: ps => fold_left (fun acc q => acc +:+ sep +:+ q) ps p
  end.

Fixpoint write (v : value) : string :=
  match v with
  | VNull => "null"
  | VBool true => "true"
  | VBool false => "false"
  | VNum z => pretty z
  | VStr s => write_string s
  | VArr items => "[" +:+ join "," (map write items) +:+ "]"
  | VObj members =>
      "{" +:+ join "," (map (fun m => write_string (fst m) +:+ ":" +:+ write (snd m))
                            members) +:+ "}"
  end.

(** Decoding into typed variables. A missing member and [null] leave the
    zero value; when a key is repeated, the last one wins. *)

Definition bind {A B : Type} (d : decoded A) (k : A -> decoded B) : decoded B :=
  match d with
  | Decoded v => k v
  | DecodeError err => DecodeError err
  end.

Definition member (key : string) (members : list (string * value)) : option value :=
  fold_left (fun found m => if decide (fst m = key) then Some (snd m) else found)
            members None.

Definition to_object (v : value) : decoded (list (string * value)) :=
  match v with
  | VObj members => Decoded members
  | VNull => Decoded []
  | _ => DecodeError "json: cannot unmarshal value into Go value of struct or map type"
  end.

Definition to_string (v : option value) : decoded string :=
  match v with
  | None | Some VNull => Decoded EmptyString
  | Some (VStr str) => Decoded str
  | Some _ => DecodeError "json: cannot unmarshal value into Go value of type string"
  end.

Definition to_int (v : option value) : decoded int :=
  match v with
  | None | Some VNull => Decoded int_zero
  | Some (VNum z) =>
      if int_fits z then Decoded (int_of_Z z)
      else DecodeError "json: cannot unmarshal number into Go value of type int"
  | Some _ => DecodeError "json: cannot unmarshal value into Go value of type int"
  end.

Definition to_Command (v : value) : decoded Command :=
  bind (to_object v) (fun ms =>
  bind (to_string (member "op" ms)) (fun op =>
  bind (to_string (member "entity_type" ms)) (fun ty =>
  Decoded {| Op := op; EntityType := ty;
             Payload := match member "payload" ms with
                        | Some p => write p
                        | None => EmptyString
                        end |}))).

Definition to_Printer (v : value) : decoded Printer.t :=
  bind (to_object v) (fun ms =>
  bind (to_string (member "id" ms)) (fun id =>
  bind (to_string (member "company" ms)) (fun company =>
  bind (to_string (member "model" ms)) (fun model =>
  Decoded (Printer.Make id company model))))).

Definition to_Filament (v : value) : decoded Filament.t :=
  bind (to_object v) (fun ms =>
  bind (to_string (member "id" ms)) (fun id =>
  bind (to_string (member "type" ms)) (fun ty =>
  bind (to_string (member "color" ms)) (fun color =>
  bind (to_int (member "total_weight_in_grams" ms)) (fun total =>
  bind (to_int (member "remaining_weight_in_grams" ms)) (fun remaining =>
  Decoded (Filament.Make id ty color total remaining))))))).

Definition to_PrintJob (v : value) : decoded PrintJob.t :=
  bind (to_object v) (fun ms =>
  bind (to_string (member "id" ms)) (fun id =>
  bind (to_string (member "printer_id" ms)) (fun printer =>
  bind (to_string (member "filament_id" ms)) (fun filament =>
  bind (to_string (member "filepath" ms)) (fun filepath =>
  bind (to_int (member "print_weight_in_grams" ms)) (fun weight =>
  bind (to_string (member "status" ms)) (fun status =>
  Decoded (PrintJob.Make id printer filament filepath weight status)))))))).

Definition to_StatusChange (v : value) : decoded PrintJobStatusChange.t :=
  bind (to_object v) (fun ms =>
  bind (to_string (member "id" ms)) (fun id =>
  bind (to_string (member "status" ms)) (fun status =>
  Decoded (PrintJobStatusChange.Make id status)))).

(** A JSON object into a [map[string]*T]. *)
Fixpoint to_map {T : Type} (to_T : value -> decoded T) (members : list (string * value))
  : decoded (gmap string T) :=
  match members with
  | [] => Decoded ∅
  | (k, v) :: rest =>
      bind (to_T v) (fun x => bind (to_map to_T rest) (fun m => Decoded (<[k := x]> m)))
  end.

Definition to_collection {T : Type} (to_T : value -> decoded T) (v : option value)
  : decoded (gmap string T) :=
  match v with
  | None => Decoded ∅
  | Some v' => bind (to_object v') (fun ms => to_map to_T (rev ms))
  end.

Definition to_Snapshot (v : value) : decoded Snapshot :=
  bind (to_object v) (fun ms =>
  bind (to_collection to_Printer (member "Printers" ms)) (fun ps =>
  bind (to_collection to_Filament (member "Filaments" ms)) (fun fs =>
  bind (to_collection to_PrintJob (member "PrintJobs" ms)) (fun js =>
  Decoded {| Printers := ps; Filaments := fs; PrintJobs := js |})))).

(** Encoding, with the member names of the struct tags. *)

Definition of_Printer (p : Printer.t) : value :=
  VObj [("id", VStr (Printer.ID p)); ("company", VStr (Printer.Company p));
        ("model", VStr (Printer.Model p))].

Definition of_Filament (f : Filament.t) : value :=
  VObj [("id", VStr (Filament.ID f)); ("type", VStr (Filament.Type_ f));
        ("color", VStr (Filament.Color f));
        ("total_weight_in_grams", VNum (int_val (Filament.TotalWeightInGrams f)));
        ("remaining_weight_in_grams", VNum (int_val (Filament.RemainingWeightInGrams f)))].

Definition of_PrintJob (j : PrintJob.t) : value :=
  VObj [("id", VStr (PrintJob.ID j)); ("printer_id", VStr (PrintJob.PrinterID j));
        ("filament_id", VStr (PrintJob.FilamentID j));
        ("filepath", VStr (PrintJob.Filepath j));
        ("print_weight_in_grams", VNum (int_val (PrintJob.PrintWeightInGrams j)));
        ("status", VStr (PrintJob.Status j))].

Definition of_StatusChange (c : PrintJobStatusChange.t) : value :=
  VObj [("id", VStr (PrintJobStatusChange.ID c));
        ("status", VStr (PrintJobStatusChange.Status c))].

Definition of_collection {T : Type} (of_T : T -> value) (m : gmap string T) : value :=
  VObj (map (fun kv => (fst kv, of_T (snd kv))) (map_to_list m)).

Definition of_Snapshot (s : Snapshot) : value :=
  VObj [("Printers", of_collection of_Printer (Printers s));
        ("Filaments", of_collection of_Filament (Filaments s));
        ("PrintJobs", of_collection of_PrintJob (PrintJobs s))].

(** A command as the request layer marshals it: the three members, the
    payload being a JSON value. *)
Definition command (op entity : string) (payload : value) : Log :=
  {| Data := write (VObj [("op", VStr op); ("entity_type", VStr entity);
                          ("payload", payload)]) |}.

Definition codec : JSON := {|
  unmarshalCommand := fun data => bind (read data) to_Command;
  unmarshalPrinter := fun data => bind (read data) to_Printer;
  unmarshalFilament := fun data => bind (read data) to_Filament;
  unmarshalPrintJob := fun data => bind (read data) to_PrintJob;
  unmarshalStatusChange := fun data => bind (read data) to_StatusChange;
  unmarshalString := fun data => bind (read data) (fun v => to_string (Some v));
  marshalSnapshot := fun s => Decoded (write (of_Snapshot s));
  decodeSnapshot := fun rc => bind (read_first rc) to_Snapshot
|}.

End RefJSON.

(** ** What a reader observes

    A reader looks a record up and follows the pointer. [view] is the
    store as seen that way: the records under their keys. *)

Record View : Type := {
  vPrinters : gmap string Printer.t;
  vFilaments : gmap string Filament.t;
  vPrintJobs : gmap string PrintJob.t
}.

Definition deref {T : Type} (h : gmap addr T) (m : gmap string addr) : gmap string T :=
  omap (fun a => h !! a) m.

Definition view (f : FSM) : View :=
  {| vPrinters := deref (printerAt (heap f)) (printers (store f));
     vFilaments := deref (filamentAt (heap f)) (filaments (store f));
     vPrintJobs := deref (printJobAt (heap f)) (printJobs (store f)) |}.

(** Every pointer of the map points to a record, and no two keys share a
    pointer. *)
Definition pointers_ok {T : Type} (h : gmap addr T) (m : gmap string addr) : Prop :=
  (forall k a, m !! k = Some a -> is_Some (h !! a)) /\
  (forall k1 k2 a, m !! k1 = Some a -> m !! k2 = Some a -> k1 = k2).

Definition wf (f : FSM) : Prop :=
  pointers_ok (printerAt (heap f)) (printers (store f)) /\
  pointers_ok (filamentAt (heap f)) (filaments (store f)) /\
  pointers_ok (printJobAt (heap f)) (printJobs (store f)).

(** Every stored record passes the validation of its type and is stored
    under its own id. *)
Definition valid_records (v : View) : Prop :=
  (forall id p, vPrinters v !! id = Some p ->
                Printer.Validate p = nil_err /\ Printer.ID p = id) /\
  (forall id x, vFilaments v !! id = Some x ->
                Filament.Validate x = nil_err /\ Filament.ID x = id) /\
  (forall id j, vPrintJobs v !! id = Some j ->
                PrintJob.Validate j = nil_err /\ PrintJob.ID j = id).

(** ** The apply engine on records

    The same dispatch as [Apply], on the records instead of the pointers.
    [Apply_effect] shows that this is what [Apply] does to the view. *)

Section effect.
Context {json : JSON}.

Definition effectPrinterCommand (v : View) (cmd : Command) : View * error :=
  let put (p : Printer.t) : View :=
    {| vPrinters := <[Printer.ID p := p]> (vPrinters v);
       vFilaments := vFilaments v; vPrintJobs := vPrintJobs v |} in
  if decide (Op cmd = OpCreate) then
    match unmarshalPrinter (Payload cmd) with
    | DecodeError err => (v, Errorf ("failed to unmarshal printer: " +:+ err))
    | Decoded printer =>
        match Printer.Validate printer with
        | Some err => (v, Some err)
        | None => (put printer, nil_err)
        end
    end
  else if decide (Op cmd = OpUpdate) then
    match unmarshalPrinter (Payload cmd) with
    | DecodeError err => (v, Errorf ("failed to unmarshal printer: " +:+ err))
    | Decoded printer =>
        match Printer.Validate printer with
        | Some err => (v, Some err)
        | None =>
            match vPrinters v !! Printer.ID printer with
            | None => (v, Errorf ("printer not found: " +:+ Printer.ID printer))
            | Some _ => (put printer, nil_err)
            end
        end
    end
  else if decide (Op cmd = OpDelete) then
    match unmarshalString (Payload cmd) with
    | DecodeError err => (v, Errorf ("failed to unmarshal ID: " +:+ err))
    | Decoded id =>
        match vPrinters v !! id with
        | None => (v, Errorf ("printer not found: " +:+ id))
        | Some _ =>
            ({| vPrinters := delete id (vPrinters v);
                vFilaments := vFilaments v; vPrintJobs := vPrintJobs v |}, nil_err)
        end
    end
  else (v, Errorf ("unknown printer operation: " +:+ Op cmd)).

Definition effectFilamentCommand (v : View) (cmd : Command) : View * error :=
  let put (x : Filament.t) : View :=
    {| vPrinters := vPrinters v;
       vFilaments := <[Filament.ID x := x]> (vFilaments v);
       vPrintJobs := vPrintJobs v |} in
  if decide (Op cmd = OpCreate) then
    match unmarshalFilament (Payload cmd) with
    | DecodeError err => (v, Errorf ("failed to unmarshal filament: " +:+ err))
    | Decoded filament =>
        match Filament.Validate filament with
        | Some err => (v, Some err)
        | None => (put filament, nil_err)
        end
    end
  else if decide (Op cmd = OpUpdate) then
    match unmarshalFilament (Payload cmd) with
    | DecodeError err => (v, Errorf ("failed to unmarshal filament: " +:+ err))
    | Decoded filament =>
        match Filament.Validate filament with
        | Some err => (v, Some err)
        | None =>
            match vFilaments v !! Filament.ID filament with
            | None => (v, Errorf ("filament not found: " +:+ Filament.ID filament))
            | Some _ => (put filament, nil_err)
            end
        end
    end
  else if decide (Op cmd = OpDelete) then
    match unmarshalString (Payload cmd) with
    | DecodeError err => (v, Errorf ("failed to unmarshal ID: " +:+ err))
    | Decoded id =>
        match vFilaments v !! id with
        | None => (v, Errorf ("filament not found: " +:+ id))
        | Some _ =>
            ({| vPrinters := vPrinters v;
                vFilaments := delete id (vFilaments v);
                vPrintJobs := vPrintJobs v |}, nil_err)
        end
    end
  else (v, Errorf ("unknown filament operation: " +:+ Op cmd)).

Definition effectPrintJobCommand (v : View) (cmd : Command) : View * error :=
  if decide (Op cmd = OpCreate) then
    match unmarshalPrintJob (Payload cmd) with
    | DecodeError err => (v, Errorf ("failed to unmarshal print job: " +:+ err))
    | Decoded printJob0 =>
        let printJob := PrintJob.set_Status printJob0 StatusQueued in
        match PrintJob.Validate printJob with
        | Some err => (v, Some err)
        | None =>
            match vPrinters v !! PrintJob.PrinterID printJob with
            | None => (v, Errorf ("printer not found: " +:+ PrintJob.PrinterID printJob))
            | Some _ =>
                match vFilaments v !! PrintJob.FilamentID printJob with
                | None =>
                    (v, Errorf ("filament not found: " +:+ PrintJob.FilamentID printJob))
                | Some filament =>
                    if int_val (PrintJob.PrintWeightInGrams printJob)
                       >? int_val (Filament.RemainingWeightInGrams filament)
                    then
                      (v, Errorf
                            ("insufficient filament: required "
                             +:+ fmt_d (PrintJob.PrintWeightInGrams printJob)
                             +:+ " g, available "
                             +:+ fmt_d (Filament.RemainingWeightInGrams filament)
                             +:+ " g"))
                    else
                      ({| vPrinters := vPrinters v; vFilaments := vFilaments v;
                          vPrintJobs := <[PrintJob.ID printJob := printJob]> (vPrintJobs v) |},
                       nil_err)
                end
            end
        end
    end
  else if decide (Op cmd = OpUpdate) then
    match unmarshalStatusChange (Payload cmd) with
    | DecodeError err => (v, Errorf ("failed to unmarshal status change: " +:+ err))
    | Decoded statusChange =>
        let id := PrintJobStatusChange.ID statusChange in
        let status := PrintJobStatusChange.Status statusChange in
        match vPrintJobs v !! id with
        | None => (v, Errorf ("print job not found: " +:+ id))
        | Some printJob =>
            match PrintJob.ValidateTransition printJob status with
            | Some err => (v, Some err)
            | None =>
                if decide (status = StatusDone) then
                  match vFilaments v !! PrintJob.FilamentID printJob with
                  | None =>
                      (v, Errorf ("filament not found: " +:+ PrintJob.FilamentID printJob))
                  | Some filament =>
                      ({| vPrinters := vPrinters v;
                          vFilaments := <[PrintJob.FilamentID printJob :=
                                            deduct filament printJob]> (vFilaments v);
                          vPrintJobs := <[id := PrintJob.set_Status printJob status]>
                                          (vPrintJobs v) |}, nil_err)
                  end
                else
                  ({| vPrinters := vPrinters v; vFilaments := vFilaments v;
                      vPrintJobs := <[id := PrintJob.set_Status printJob status]>
                                      (vPrintJobs v) |}, nil_err)
            end
        end
    end
  else if decide (Op cmd = OpDelete) then
    match unmarshalString (Payload cmd) with
    | DecodeError err => (v, Errorf ("failed to unmarshal ID: " +:+ err))
    | Decoded id =>
        match vPrintJobs v !! id with
        | None => (v, Errorf ("print job not found: " +:+ id))
        | Some _ =>
            ({| vPrinters := vPrinters v; vFilaments := vFilaments v;
                vPrintJobs := delete id (vPrintJobs v) |}, nil_err)
        end
    end
  else (v, Errorf ("unknown print job operation: " +:+ Op cmd)).

Definition effect (v : View) (log : Log) : View * error :=
  match unmarshalCommand (Data log) with
  | DecodeError err => (v, Errorf ("failed to unmarshal command: " +:+ err))
  | Decoded cmd =>
      if decide (EntityType cmd = EntityPrinter) then effectPrinterCommand v cmd
      else if decide (EntityType cmd = EntityFilament) then effectFilamentCommand v cmd
      else if decide (EntityType cmd = EntityPrintJob) then effectPrintJobCommand v cmd
      else (v, Errorf ("unknown entity type: " +:+ EntityType cmd))
  end.

(** ** Reachable states

    A node starts from [NewFSM], applies committed commands, and may
    restore a snapshot that some node took of its state. *)
Inductive reachable : FSM -> Prop :=
  | reachable_NewFSM (h : Heap) : reachable (NewFSM h)
  | reachable_Apply (f : FSM) (log : Log) :
      reachable f -> reachable (fst (Apply f log))
  | reachable_Restore (f f0 : FSM) (s : Snapshot) (rc : string) :
      reachable f -> reachable f0 ->
      FSM_Snapshot f0 = Some (s, nil_err) ->
      decodeSnapshot rc = Decoded s ->
      reachable (fst (Restore f rc)).

(** The shapes of commands the properties speak of. *)

(** [log] is a command on entities of kind [entity]. *)
Definition command_on (log : Log) (entity : string) : Prop :=
  exists cmd, unmarshalCommand (Data log) = Decoded cmd /\ EntityType cmd = entity.

(** [log] is a PrintJob Update that asks for status [status] of job [id]. *)
Definition status_change (log : Log) (id status : string) : Prop :=
  exists cmd,
    unmarshalCommand (Data log) = Decoded cmd /\
    EntityType cmd = EntityPrintJob /\ Op cmd = OpUpdate /\
    unmarshalStatusChange (Payload cmd) = Decoded (PrintJobStatusChange.Make id status).

(** [log] is operation [op] on print jobs. *)
Definition printJob_command (log : Log) (op : string) : Prop :=
  exists cmd,
    unmarshalCommand (Data log) = Decoded cmd /\
    EntityType cmd = EntityPrintJob /\ Op cmd = op.

(** [log] is a Create of the record [printJob] (status as submitted). *)
Definition create_printJob (log : Log) (printJob : PrintJob.t) : Prop :=
  exists cmd,
    unmarshalCommand (Data log) = Decoded cmd /\
    EntityType cmd = EntityPrintJob /\ Op cmd = OpCreate /\
    unmarshalPrintJob (Payload cmd) = Decoded printJob.

(** [log] is operation [op] on the decoded printer or filament record. *)
Definition printer_command (log : Log) (op : string) (printer : Printer.t) : Prop :=
  exists cmd,
    unmarshalCommand (Data log) = Decoded cmd /\
    EntityType cmd = EntityPrinter /\ Op cmd = op /\
    unmarshalPrinter (Payload cmd) = Decoded printer.

Definition filament_command (log : Log) (op : string) (filament : Filament.t) : Prop :=
  exists cmd,
    unmarshalCommand (Data log) = Decoded cmd /\
    EntityType cmd = EntityFilament /\ Op cmd = op /\
    unmarshalFilament (Payload cmd) = Decoded filament.

End effect.

(** The allowed transitions of the status state machine. *)
Definition allowed_transition (current requested : string) : Prop :=
  (current = StatusQueued /\ requested = StatusRunning) \/
  (current = StatusQueued /\ requested = StatusCancelled) \/
  (current = StatusRunning /\ requested = StatusDone) \/
  (current = StatusRunning /\ requested = StatusCancelled).

(** What [Apply_effect] says of one call: the state stays well-formed,
    the call returns what [effect] says, and the view becomes what
    [effect] says. *)
Definition refines (r : FSM * outcome) (e : View * error) : Prop :=
  wf (fst r) /\ snd r = Return (snd e) /\ view (fst r) = fst e.

(** ** Example data *)

Module Examples.
Import RefJSON.

Definition empty_heap : Heap := {| printerAt := ∅; filamentAt := ∅; printJobAt := ∅ |}.

Definition printer_p1 : Printer.t := Printer.Make "p1" "Creality" "Ender 3".

Definition filament_f1 (remaining : Z) : Filament.t :=
  Filament.Make "f1" "PLA" "Red" (int_of_Z 1000) (int_of_Z remaining).

Definition job_j1 (weight : Z) (status : string) : PrintJob.t :=
  PrintJob.Make "j1" "p1" "f1" "/path/to/model.gcode" (int_of_Z weight) status.

Definition create_printer (p : Printer.t) : Log :=
  command OpCreate EntityPrinter (of_Printer p).
Definition update_printer (p : Printer.t) : Log :=
  command OpUpdate EntityPrinter (of_Printer p).
Definition create_filament (x : Filament.t) : Log :=
  command OpCreate EntityFilament (of_Filament x).
Definition update_filament (x : Filament.t) : Log :=
  command OpUpdate EntityFilament (of_Filament x).
Definition delete_filament_log (id : string) : Log :=
  command OpDelete EntityFilament (VStr id).
Definition create_job (j : PrintJob.t) : Log :=
  command OpCreate EntityPrintJob (of_PrintJob j).
Definition set_status (id status : string) : Log :=
  command OpUpdate EntityPrintJob (of_StatusChange (PrintJobStatusChange.Make id status)).

(** The example of the specification: a printer, a full spool of 1000 g,
    a job of 400 g. *)
Definition setup : list Log :=
  [create_printer printer_p1; create_filament (filament_f1 1000);
   create_job (job_j1 400 EmptyString)].

(** The state after [setup] and the start of the job. *)
Definition running : FSM :=
  fst (run (json := codec) (NewFSM empty_heap) (setup ++ [set_status "j1" StatusRunning])).

End Examples.

Module Examples2.
Import RefJSON Examples.

(** [running] after the filament was deleted. *)
Definition running_without_filament : FSM :=
  fst (Apply (json := codec) running (delete_filament_log "f1")).

(** A spool with 50 g left and a started job of 100 g on it. *)
Definition overdrawn : FSM :=
  fst (run (json := codec) (NewFSM empty_heap)
         [create_printer printer_p1; create_filament (filament_f1 1000);
          create_job (job_j1 100 EmptyString);
          update_filament (filament_f1 50);
          set_status "j1" StatusRunning]).

End Examples2.

Module Examples3.
Import RefJSON Examples.

(** [running] after the job is done. *)
Definition finished : FSM :=
  fst (Apply (json := codec) running (set_status "j1" StatusDone)).

(** A sink on which nothing was written and nothing fails. *)
Definition empty_sink : SnapshotSink :=
  {| written := EmptyString; write_err := nil_err; close_err := nil_err;
     cancelled := false; closed := false |}.

(** The bytes [Persist] writes for the snapshot of [finished]. *)
Definition finished_bytes : string :=
  match FSM_Snapshot finished with
  | Some (s, _) => written (fst (Persist (json := codec) s empty_sink))
  | None => EmptyString
  end.

End Examples3.

(** ** Package raft and the main program: the list of cluster nodes *)

(** [strings.Split(s, sep)] for a separator of one byte: the pieces of
    [s] between the separators, an empty [s] giving one empty piece. *)
Fixpoint Split (s : string) (sep : ascii) : list string :=
  match s with
  | EmptyString => [EmptyString]
  | String c rest =>
      if decide (c = sep) then EmptyString :: Split rest sep
      else match Split rest sep with
           | piece :: pieces => String c piece :: pieces
           | [] => [String c EmptyString]
           end
  end.

(** [strings.Join(pieces, sep)], for stating what [Split] keeps. *)
Fixpoint Join (pieces : list string) (sep : ascii) : string :=
  match pieces with
  | [] => EmptyString
  | [piece] => piece
  | piece :: rest => piece +:+ String sep (Join rest sep)
  end.

(** The number of bytes [c] in [s] ([strings.Count]). *)
Fixpoint Count (s : string) (c : ascii) : nat :=
  match s with
  | EmptyString => O
  | String c' rest => if decide (c' = c) then S (Count rest c) else Count rest c
  end.

Definition parseNodeString (node : string) : string * string * error :=
  let parts := Split node "="%char in
  if decide (length parts <> 2%nat) then
    (EmptyString, EmptyString,
     Errorf ("invalid node format, expected 'id=addr', got '" +:+ node +:+ "'"))
  else (default EmptyString (parts !! 0%nat), default EmptyString (parts !! 1%nat), nil_err).

(** [raft.Server], as far as [Start] fills it. *)
Record raftServer : Type := { ServerID : string; ServerAddress : string }.

(** The loop of [Server.Start] over [config.ClusterNodes] that fills
    [configuration.Servers]; an error is the error [Start] returns. *)
Fixpoint bootstrapServers (nodes : list string) : string + list raftServer :=
  match nodes with
  | [] => inr []
  | node :: rest =>
      match parseNodeString node with
      | (_, _, Some err) => inl ("failed to parse node string: " +:+ err)
      | (id, addr, None) =>
          match bootstrapServers rest with
          | inl err => inl err
          | inr servers => inr ({| ServerID := id; ServerAddress := addr |} :: servers)
          end
      end
  end.

(** [portBase] of [main], by node id. *)
Definition portBase (nodeID : string) : Z :=
  if decide (nodeID = "node1") then 7001
  else if decide (nodeID = "node2") then 7002
  else if decide (nodeID = "node3") then 7003
  else 7000.

(** The list [nodes] that [main] makes of the flag [-nodes] and hands to
    the server as [ClusterNodes]. *)
Definition clusterNodes (flag : string) : list string :=
  if decide (flag <> EmptyString) then
    (fun node =>
       let parts := Split node "="%char in
       if decide (length parts = 1%nat) then
         let nodeID := default EmptyString (parts !! 0%nat) in
         nodeID +:+ "=127.0.0.1:" +:+ pretty (portBase nodeID)
       else node) <$> Split flag ","%char
  else [].

(** Each node of the list has one [=]. *)
Definition well_formed_nodes (nodes : list string) : Prop :=
  Forall (fun node => Count node "="%char = 1%nat) nodes.

(** ** More shapes of commands *)

Section more_commands.
Context {json : JSON}.

(** [log] is a Delete of [id] among the entities of kind [entity]. *)
Definition delete_command (log : Log) (entity id : string) : Prop :=
  exists cmd,
    unmarshalCommand (Data log) = Decoded cmd /\
    EntityType cmd = entity /\ Op cmd = OpDelete /\
    unmarshalString (Payload cmd) = Decoded id.

End more_commands.

(** [x'] is [x] after some filament was used: the same record but for
    the remaining weight, which is not negative and has not grown. *)
Definition filament_used (x x' : Filament.t) : Prop :=
  x' = Filament.set_RemainingWeightInGrams x (Filament.RemainingWeightInGrams x') /\
  0 <= int_val (Filament.RemainingWeightInGrams x')
    <= int_val (Filament.RemainingWeightInGrams x).

(** * Properties *)

(** ** Machine integers *)

Lemma wrap_int_fits (z : Z) : int_fits (wrap z) = true.
Proof.
  unfold int_fits, wrap, int_min, int_max.
  pose proof (Z.mod_pos_bound (z + 2 ^ 63) (2 ^ 64) ltac:(lia)).
  apply andb_true_intro; split; apply Z.leb_le; lia.
Qed.

Lemma wrap_id (z : Z) : int_min <= z <= int_max -> wrap z = z.
Proof.
  unfold wrap, int_min, int_max. intros H.
  rewrite Z.mod_small; lia.
Qed.

Lemma int_of_Z_val (z : Z) : int_val (int_of_Z z) = wrap z.
Proof.
  unfold int_of_Z. destruct (bool_dec _ _) as [e|n]; [done|].
  destruct n. apply wrap_int_fits.
Qed.

Lemma int_bounds (i : int) : int_min <= int_val i <= int_max.
Proof.
  destruct i as [z Hz]; simpl. unfold int_fits in Hz.
  apply andb_prop in Hz as [H1 H2]. apply Z.leb_le in H1, H2. lia.
Qed.

Lemma int_eq (a b : int) : int_val a = int_val b -> a = b.
Proof.
  destruct a as [x Hx], b as [y Hy]; simpl; intros ->.
  f_equal. apply (proof_irrel Hx Hy).
Qed.

(** The subtraction of a positive from a non-negative [int] does not
    wrap. *)
Lemma int_sub_val (a b : int) :
  0 <= int_val a -> 0 < int_val b -> int_val (int_sub a b) = int_val a - int_val b.
Proof.
  intros Ha Hb. unfold int_sub. rewrite int_of_Z_val.
  pose proof (int_bounds a). pose proof (int_bounds b).
  apply wrap_id. unfold int_min, int_max in *. lia.
Qed.

(** ** Validation *)

Lemma Printer_Validate_nil (p : Printer.t) :
  Printer.Validate p = nil_err <->
  Printer.ID p <> EmptyString /\ Printer.Company p <> EmptyString
  /\ Printer.Model p <> EmptyString.
Proof.
  unfold Printer.Validate, nil_err, Errorf.
  repeat case_decide; intuition congruence.
Qed.

Lemma validTypes_spec (ty : string) :
  index_bool Filament.validTypes ty = true <->
  ty = "PLA" \/ ty = "PETG" \/ ty = "ABS" \/ ty = "TPU".
Proof.
  unfold index_bool, Filament.validTypes.
  rewrite !lookup_insert, lookup_empty.
  repeat case_decide; simpl; intuition congruence.
Qed.

Lemma Filament_Validate_nil (x : Filament.t) :
  Filament.Validate x = nil_err <->
  Filament.ID x <> EmptyString /\
  index_bool Filament.validTypes (Filament.Type_ x) = true /\
  Filament.Color x <> EmptyString /\
  0 < int_val (Filament.TotalWeightInGrams x) /\
  0 <= int_val (Filament.RemainingWeightInGrams x)
    <= int_val (Filament.TotalWeightInGrams x).
Proof.
  unfold Filament.Validate, nil_err, Errorf.
  destruct (index_bool _ _); simpl;
    repeat case_decide; try (intuition congruence).
  destruct (Z.leb_spec (int_val (Filament.TotalWeightInGrams x)) 0);
    [intuition (try congruence; lia)|].
  destruct (Z.ltb_spec (int_val (Filament.RemainingWeightInGrams x)) 0); simpl;
    [intuition (try congruence; lia)|].
  rewrite Z.gtb_ltb.
  destruct (Z.ltb_spec (int_val (Filament.TotalWeightInGrams x))
                       (int_val (Filament.RemainingWeightInGrams x)));
    intuition (try congruence; lia).
Qed.

Lemma validStatuses_spec (s : string) :
  index_bool PrintJob.validStatuses s = true <->
  s = StatusQueued \/ s = StatusRunning \/ s = StatusDone \/ s = StatusCancelled.
Proof.
  unfold index_bool, PrintJob.validStatuses.
  rewrite !lookup_insert, lookup_empty.
  repeat case_decide; simpl; intuition congruence.
Qed.

Lemma PrintJob_Validate_nil (j : PrintJob.t) :
  PrintJob.Validate j = nil_err <->
  PrintJob.ID j <> EmptyString /\ PrintJob.PrinterID j <> EmptyString /\
  PrintJob.FilamentID j <> EmptyString /\ PrintJob.Filepath j <> EmptyString /\
  0 < int_val (PrintJob.PrintWeightInGrams j) /\
  index_bool PrintJob.validStatuses (PrintJob.Status j) = true.
Proof.
  unfold PrintJob.Validate, nil_err, Errorf.
  destruct (index_bool _ _); simpl;
    repeat case_decide; try (intuition congruence);
    destruct (Z.leb_spec (int_val (PrintJob.PrintWeightInGrams j)) 0);
    intuition (try congruence; lia).
Qed.

(** [ValidateTransition] accepts the four allowed pairs and nothing else,
    and its error names both statuses. *)
Lemma ValidateTransition_allowed (j : PrintJob.t) (s : string) :
  allowed_transition (PrintJob.Status j) s -> PrintJob.ValidateTransition j s = nil_err.
Proof.
  unfold allowed_transition, PrintJob.ValidateTransition.
  intros [[-> ->]|[[-> ->]|[[-> ->]|[-> ->]]]]; reflexivity.
Qed.

Lemma ValidateTransition_rejected (j : PrintJob.t) (s : string) :
  ~ allowed_transition (PrintJob.Status j) s ->
  PrintJob.ValidateTransition j s =
  Errorf ("invalid status transition from " +:+ PrintJob.Status j +:+ " to " +:+ s).
Proof.
  unfold allowed_transition, PrintJob.ValidateTransition, PrintJob.validTransitions,
    index_bool.
  intros Hn. rewrite !lookup_insert, lookup_empty.
  repeat case_decide; simpl; try reflexivity;
    rewrite ?lookup_insert, ?lookup_empty;
    repeat case_decide; simpl; try reflexivity;
    exfalso; apply Hn; intuition congruence.
Qed.

Lemma allowed_transition_dec (c s : string) :
  allowed_transition c s \/ ~ allowed_transition c s.
Proof.
  unfold allowed_transition.
  destruct (decide (c = StatusQueued)), (decide (c = StatusRunning)),
    (decide (s = StatusRunning)), (decide (s = StatusCancelled)),
    (decide (s = StatusDone)); intuition congruence.
Qed.

Lemma ValidateTransition_nil (j : PrintJob.t) (s : string) :
  PrintJob.ValidateTransition j s = nil_err <-> allowed_transition (PrintJob.Status j) s.
Proof.
  split; [|apply ValidateTransition_allowed].
  intros H. destruct (allowed_transition_dec (PrintJob.Status j) s) as [|Hn]; [done|].
  rewrite (ValidateTransition_rejected _ _ Hn) in H. discriminate.
Qed.

(** ** Pointers and the records behind them *)

Section deref.
Context {T : Type}.
Implicit Types (h : gmap addr T) (m : gmap string addr).

Lemma deref_lookup h m k : deref h m !! k = m !! k ≫= (fun a => h !! a).
Proof. unfold deref. apply lookup_omap. Qed.

Lemma deref_Some h m k a x :
  m !! k = Some a -> h !! a = Some x -> deref h m !! k = Some x.
Proof. intros Hk Ha. rewrite deref_lookup, Hk. exact Ha. Qed.

Lemma deref_None h m k : m !! k = None -> deref h m !! k = None.
Proof. intros Hk. rewrite deref_lookup, Hk. reflexivity. Qed.

Lemma pointers_ok_empty h : pointers_ok h ∅.
Proof. split; intros *; rewrite lookup_empty; discriminate. Qed.

Lemma alloc_fresh h x : h !! fst (alloc h x) = None.
Proof.
  unfold alloc; simpl. apply not_elem_of_dom. apply is_fresh.
Qed.

Lemma alloc_keeps h x a y : h !! a = Some y -> snd (alloc h x) !! a = Some y.
Proof.
  intros Ha. unfold alloc; simpl. rewrite lookup_insert_ne; [done|].
  intros <-. pose proof (alloc_fresh h x) as Hf. unfold alloc in Hf; simpl in Hf.
  congruence.
Qed.

Lemma insert_fresh_keeps h x a y :
  h !! a = Some y -> <[fresh (dom h) := x]> h !! a = Some y.
Proof. apply alloc_keeps. Qed.

Lemma deref_alloc h m k x :
  pointers_ok h m ->
  deref (snd (alloc h x)) (<[k := fst (alloc h x)]> m) = <[k := x]> (deref h m).
Proof.
  intros [Hv _]. apply map_eq; intros k'. rewrite deref_lookup.
  destruct (decide (k = k')) as [->|Hne].
  - rewrite !lookup_insert_eq. unfold alloc; simpl. apply lookup_insert_eq.
  - rewrite !lookup_insert_ne by done. rewrite deref_lookup.
    destruct (m !! k') as [a|] eqn:Hk; simpl; [|done].
    destruct (Hv _ _ Hk) as [y Hy]. rewrite Hy. by apply alloc_keeps.
Qed.

Lemma pointers_ok_alloc h m k x :
  pointers_ok h m -> pointers_ok (snd (alloc h x)) (<[k := fst (alloc h x)]> m).
Proof.
  intros [Hv Hi]. pose proof (alloc_fresh h x) as Hf.
  unfold alloc in *; simpl in *. split.
  - intros k' a. rewrite lookup_insert. case_decide.
    + intros [= <-]. rewrite lookup_insert_eq. eauto.
    + intros Hk. destruct (Hv _ _ Hk) as [y Hy]. exists y.
      by apply (alloc_keeps h x).
  - intros k1 k2 a. rewrite !lookup_insert. repeat case_decide; subst.
    + done.
    + intros [= <-] Hk. destruct (Hv _ _ Hk) as [y Hy]. congruence.
    + intros Hk [= <-]. destruct (Hv _ _ Hk) as [y Hy]. congruence.
    + apply Hi.
Qed.

Lemma deref_delete h m k : deref h (delete k m) = delete k (deref h m).
Proof. unfold deref. apply omap_delete. Qed.

Lemma pointers_ok_delete h m k : pointers_ok h m -> pointers_ok h (delete k m).
Proof.
  intros [Hv Hi]. split.
  - intros k' a Hk. apply lookup_delete_Some in Hk as [_ Hk]. eauto.
  - intros k1 k2 a H1 H2. apply lookup_delete_Some in H1 as [_ H1].
    apply lookup_delete_Some in H2 as [_ H2]. eauto.
Qed.

(** Writing through a pointer of the map changes the record under its
    key and no other. *)
Lemma deref_write h m k a x :
  pointers_ok h m -> m !! k = Some a ->
  deref (<[a := x]> h) m = <[k := x]> (deref h m).
Proof.
  intros [Hv Hi] Hk. apply map_eq; intros k'. rewrite deref_lookup.
  destruct (decide (k = k')) as [<-|Hne].
  - rewrite Hk, lookup_insert_eq; simpl. apply lookup_insert_eq.
  - rewrite lookup_insert_ne by done. rewrite deref_lookup.
    destruct (m !! k') as [a'|] eqn:Hk'; simpl; [|done].
    rewrite lookup_insert_ne; [done|]. intros <-. apply Hne. eauto.
Qed.

Lemma pointers_ok_write h m a x : pointers_ok h m -> pointers_ok (<[a := x]> h) m.
Proof.
  intros [Hv Hi]. split; [|exact Hi].
  intros k a' Hk. rewrite lookup_insert. case_decide; [eauto|]. eauto.
Qed.

(** The loop of [FSM.Snapshot] copies exactly the records a reader sees. *)
Lemma copy_records_deref h m :
  pointers_ok h m -> copy_records h m = Some (deref h m).
Proof.
  intros [Hv _]. revert Hv. unfold copy_records.
  apply (map_fold_weak_ind (fun r m' =>
    (forall k a, m' !! k = Some a -> is_Some (h !! a)) -> r = Some (deref h m'))).
  - intros _. unfold deref. by rewrite omap_empty.
  - intros k a m' r Hk IH Hv.
    rewrite IH; [|intros k' a' Hk'; apply (Hv k'); rewrite lookup_insert_ne; [done|congruence]].
    destruct (Hv k a) as [x Hx]; [apply lookup_insert_eq|].
    rewrite Hx. f_equal. unfold deref. symmetry. by apply omap_insert_Some.
Qed.

(** The cells the decoder allocates hold the decoded records, one cell
    per key, and no cell that existed before is touched. *)
Lemma place_records_spec h (recs : gmap string T) :
  deref (fst (place_records h recs)) (snd (place_records h recs)) = recs /\
  pointers_ok (fst (place_records h recs)) (snd (place_records h recs)) /\
  (forall a x, h !! a = Some x -> fst (place_records h recs) !! a = Some x).
Proof.
  unfold place_records.
  apply (map_fold_weak_ind (fun r (recs' : gmap string T) =>
    deref (fst r) (snd r) = recs' /\ pointers_ok (fst r) (snd r) /\
    (forall a x, h !! a = Some x -> fst r !! a = Some x))).
  - simpl. split; [unfold deref; apply omap_empty|].
    split; [apply pointers_ok_empty|done].
  - intros k x recs' [h1 pm] Hk (IH1 & IH2 & IH3). simpl in *.
    split; [|split].
    + rewrite <- IH1. apply (deref_alloc h1 pm k x IH2).
    + apply (pointers_ok_alloc h1 pm k x IH2).
    + intros a y Ha. apply (alloc_keeps h1 x). eauto.
Qed.

End deref.

(** ** The operations on the store, seen through [view] *)

Lemma wf_NewFSM (h : Heap) : wf (NewFSM h).
Proof. repeat split; intros *; simpl; rewrite lookup_empty; discriminate. Qed.

Lemma view_NewFSM (h : Heap) :
  view (NewFSM h) = {| vPrinters := ∅; vFilaments := ∅; vPrintJobs := ∅ |}.
Proof. unfold view, deref; simpl. by rewrite !omap_empty. Qed.

Lemma view_store_printer (f : FSM) (id : string) (p : Printer.t) :
  wf f ->
  wf (store_printer f id p) /\
  view (store_printer f id p) =
    {| vPrinters := <[id := p]> (vPrinters (view f));
       vFilaments := vFilaments (view f); vPrintJobs := vPrintJobs (view f) |}.
Proof.
  intros (Hp & Hf & Hj).
  pose proof (pointers_ok_alloc _ _ id p Hp) as Hok.
  pose proof (deref_alloc _ _ id p Hp) as Heq.
  unfold store_printer, alloc, view, wf in *; simpl in *. rewrite Heq. done.
Qed.

Lemma view_store_filament (f : FSM) (id : string) (x : Filament.t) :
  wf f ->
  wf (store_filament f id x) /\
  view (store_filament f id x) =
    {| vPrinters := vPrinters (view f);
       vFilaments := <[id := x]> (vFilaments (view f));
       vPrintJobs := vPrintJobs (view f) |}.
Proof.
  intros (Hp & Hf & Hj).
  pose proof (pointers_ok_alloc _ _ id x Hf) as Hok.
  pose proof (deref_alloc _ _ id x Hf) as Heq.
  unfold store_filament, alloc, view, wf in *; simpl in *. rewrite Heq. done.
Qed.

Lemma view_store_printJob (f : FSM) (id : string) (j : PrintJob.t) :
  wf f ->
  wf (store_printJob f id j) /\
  view (store_printJob f id j) =
    {| vPrinters := vPrinters (view f); vFilaments := vFilaments (view f);
       vPrintJobs := <[id := j]> (vPrintJobs (view f)) |}.
Proof.
  intros (Hp & Hf & Hj).
  pose proof (pointers_ok_alloc _ _ id j Hj) as Hok.
  pose proof (deref_alloc _ _ id j Hj) as Heq.
  unfold store_printJob, alloc, view, wf in *; simpl in *. rewrite Heq. done.
Qed.

Lemma view_delete_printer (f : FSM) (id : string) :
  wf f ->
  wf (delete_printer f id) /\
  view (delete_printer f id) =
    {| vPrinters := delete id (vPrinters (view f));
       vFilaments := vFilaments (view f); vPrintJobs := vPrintJobs (view f) |}.
Proof.
  intros (Hp & Hf & Hj). unfold delete_printer, view, wf; simpl.
  rewrite deref_delete. auto using pointers_ok_delete.
Qed.

Lemma view_delete_filament (f : FSM) (id : string) :
  wf f ->
  wf (delete_filament f id) /\
  view (delete_filament f id) =
    {| vPrinters := vPrinters (view f);
       vFilaments := delete id (vFilaments (view f));
       vPrintJobs := vPrintJobs (view f) |}.
Proof.
  intros (Hp & Hf & Hj). unfold delete_filament, view, wf; simpl.
  rewrite deref_delete. auto using pointers_ok_delete.
Qed.

Lemma view_delete_printJob (f : FSM) (id : string) :
  wf f ->
  wf (delete_printJob f id) /\
  view (delete_printJob f id) =
    {| vPrinters := vPrinters (view f); vFilaments := vFilaments (view f);
       vPrintJobs := delete id (vPrintJobs (view f)) |}.
Proof.
  intros (Hp & Hf & Hj). unfold delete_printJob, view, wf; simpl.
  rewrite deref_delete. auto using pointers_ok_delete.
Qed.

Lemma view_write_filament (f : FSM) (id : string) (p : addr) (x : Filament.t) :
  wf f -> filaments (store f) !! id = Some p ->
  wf (write_filament f p x) /\
  view (write_filament f p x) =
    {| vPrinters := vPrinters (view f);
       vFilaments := <[id := x]> (vFilaments (view f));
       vPrintJobs := vPrintJobs (view f) |}.
Proof.
  intros (Hp & Hf & Hj) Hid. unfold write_filament, view, wf; simpl.
  rewrite (deref_write _ _ id p x Hf Hid). auto using pointers_ok_write.
Qed.

Lemma view_write_printJob (f : FSM) (id : string) (p : addr) (j : PrintJob.t) :
  wf f -> printJobs (store f) !! id = Some p ->
  wf (write_printJob f p j) /\
  view (write_printJob f p j) =
    {| vPrinters := vPrinters (view f); vFilaments := vFilaments (view f);
       vPrintJobs := <[id := j]> (vPrintJobs (view f)) |}.
Proof.
  intros (Hp & Hf & Hj) Hid. unfold write_printJob, view, wf; simpl.
  rewrite (deref_write _ _ id p j Hj Hid). auto using pointers_ok_write.
Qed.

(** A lookup in the store and the lookup a reader makes. *)
Lemma lookup_printer (f : FSM) (id : string) :
  wf f ->
  match printers (store f) !! id with
  | Some a => exists p, printerAt (heap f) !! a = Some p
                        /\ vPrinters (view f) !! id = Some p
  | None => vPrinters (view f) !! id = None
  end.
Proof.
  intros ([Hv _] & _). destruct (printers (store f) !! id) as [a|] eqn:Hid.
  - destruct (Hv _ _ Hid) as [p Hp]. exists p. split; [done|].
    by apply (deref_Some _ _ _ a).
  - by apply deref_None.
Qed.

Lemma lookup_filament (f : FSM) (id : string) :
  wf f ->
  match filaments (store f) !! id with
  | Some a => exists x, filamentAt (heap f) !! a = Some x
                        /\ vFilaments (view f) !! id = Some x
  | None => vFilaments (view f) !! id = None
  end.
Proof.
  intros (_ & [Hv _] & _). destruct (filaments (store f) !! id) as [a|] eqn:Hid.
  - destruct (Hv _ _ Hid) as [p Hp]. exists p. split; [done|].
    by apply (deref_Some _ _ _ a).
  - by apply deref_None.
Qed.

Lemma lookup_printJob (f : FSM) (id : string) :
  wf f ->
  match printJobs (store f) !! id with
  | Some a => exists j, printJobAt (heap f) !! a = Some j
                        /\ vPrintJobs (view f) !! id = Some j
  | None => vPrintJobs (view f) !! id = None
  end.
Proof.
  intros (_ & _ & [Hv _]). destruct (printJobs (store f) !! id) as [a|] eqn:Hid.
  - destruct (Hv _ _ Hid) as [p Hp]. exists p. split; [done|].
    by apply (deref_Some _ _ _ a).
  - by apply deref_None.
Qed.

(** ** [Apply] and its effect on the view *)

Section simulation.
Context {json : JSON}.

Lemma refines_same (f : FSM) (err : error) : wf f -> refines (f, Return err) (view f, err).
Proof. by intros Hwf. Qed.

Lemma applyPrinterCommand_effect (f : FSM) (cmd : Command) :
  wf f -> refines (applyPrinterCommand f cmd) (effectPrinterCommand (view f) cmd).
Proof.
  intros Hwf. unfold applyPrinterCommand, effectPrinterCommand.
  repeat case_decide; try by apply refines_same.
  - destruct (unmarshalPrinter _) as [p|]; [|by apply refines_same].
    destruct (Printer.Validate p); [by apply refines_same|].
    destruct (view_store_printer f (Printer.ID p) p Hwf) as [? ?]. done.
  - destruct (unmarshalPrinter _) as [p|]; [|by apply refines_same].
    destruct (Printer.Validate p); [by apply refines_same|].
    pose proof (lookup_printer f (Printer.ID p) Hwf) as Hl.
    destruct (printers (store f) !! Printer.ID p).
    + destruct Hl as (q & _ & ->).
      destruct (view_store_printer f (Printer.ID p) p Hwf) as [? ?]. done.
    + rewrite Hl. by apply refines_same.
  - destruct (unmarshalString _) as [id|]; [|by apply refines_same].
    pose proof (lookup_printer f id Hwf) as Hl.
    destruct (printers (store f) !! id).
    + destruct Hl as (q & _ & ->).
      destruct (view_delete_printer f id Hwf) as [? ?]. done.
    + rewrite Hl. by apply refines_same.
Qed.

Lemma applyFilamentCommand_effect (f : FSM) (cmd : Command) :
  wf f -> refines (applyFilamentCommand f cmd) (effectFilamentCommand (view f) cmd).
Proof.
  intros Hwf. unfold applyFilamentCommand, effectFilamentCommand.
  repeat case_decide; try by apply refines_same.
  - destruct (unmarshalFilament _) as [p|]; [|by apply refines_same].
    destruct (Filament.Validate p); [by apply refines_same|].
    destruct (view_store_filament f (Filament.ID p) p Hwf) as [? ?]. done.
  - destruct (unmarshalFilament _) as [p|]; [|by apply refines_same].
    destruct (Filament.Validate p); [by apply refines_same|].
    pose proof (lookup_filament f (Filament.ID p) Hwf) as Hl.
    destruct (filaments (store f) !! Filament.ID p).
    + destruct Hl as (q & _ & ->).
      destruct (view_store_filament f (Filament.ID p) p Hwf) as [? ?]. done.
    + rewrite Hl. by apply refines_same.
  - destruct (unmarshalString _) as [id|]; [|by apply refines_same].
    pose proof (lookup_filament f id Hwf) as Hl.
    destruct (filaments (store f) !! id).
    + destruct Hl as (q & _ & ->).
      destruct (view_delete_filament f id Hwf) as [? ?]. done.
    + rewrite Hl. by apply refines_same.
Qed.

Lemma applyPrintJobCommand_effect (f : FSM) (cmd : Command) :
  wf f -> refines (applyPrintJobCommand f cmd) (effectPrintJobCommand (view f) cmd).
Proof.
  intros Hwf. unfold applyPrintJobCommand, effectPrintJobCommand.
  repeat case_decide; try by apply refines_same.
  - destruct (unmarshalPrintJob _) as [j|]; [|by apply refines_same].
    cbv zeta.
    destruct (PrintJob.Validate _); [by apply refines_same|].
    pose proof (lookup_printer f (PrintJob.PrinterID (PrintJob.set_Status j StatusQueued)) Hwf) as Hl.
    destruct (printers (store f) !! _); [|rewrite Hl; by apply refines_same].
    destruct Hl as (q & _ & ->).
    pose proof (lookup_filament f (PrintJob.FilamentID (PrintJob.set_Status j StatusQueued)) Hwf) as Hl.
    destruct (filaments (store f) !! _); [|rewrite Hl; by apply refines_same].
    destruct Hl as (x & -> & ->).
    destruct (_ >? _); [by apply refines_same|].
    destruct (view_store_printJob f (PrintJob.ID (PrintJob.set_Status j StatusQueued))
                (PrintJob.set_Status j StatusQueued) Hwf) as [? ?]. done.
  - destruct (unmarshalStatusChange _) as [sc|]; [|by apply refines_same].
    cbv zeta.
    pose proof (lookup_printJob f (PrintJobStatusChange.ID sc) Hwf) as Hl.
    destruct (printJobs (store f) !! _) as [pj|] eqn:Hpj;
      [|rewrite Hl; by apply refines_same].
    destruct Hl as (j & -> & ->).
    destruct (PrintJob.ValidateTransition _ _); [by apply refines_same|].
    case_decide.
    + pose proof (lookup_filament f (PrintJob.FilamentID j) Hwf) as Hl.
      destruct (filaments (store f) !! _) as [pf|] eqn:Hpf;
        [|rewrite Hl; by apply refines_same].
      destruct Hl as (x & -> & ->).
      destruct (view_write_filament f _ pf (deduct x j) Hwf Hpf) as [Hwf1 Hv1].
      destruct (view_write_printJob (write_filament f pf (deduct x j))
                  (PrintJobStatusChange.ID sc) pj
                  (PrintJob.set_Status j (PrintJobStatusChange.Status sc)) Hwf1 Hpj)
        as [Hwf2 Hv2].
      split; [done|]. split; [done|]. simpl. rewrite Hv2, Hv1. done.
    + destruct (view_write_printJob f (PrintJobStatusChange.ID sc) pj
                  (PrintJob.set_Status j (PrintJobStatusChange.Status sc)) Hwf Hpj)
        as [? ?]. done.
  - destruct (unmarshalString _) as [id|]; [|by apply refines_same].
    pose proof (lookup_printJob f id Hwf) as Hl.
    destruct (printJobs (store f) !! id).
    + destruct Hl as (q & _ & ->).
      destruct (view_delete_printJob f id Hwf) as [? ?]. done.
    + rewrite Hl. by apply refines_same.
Qed.

(** [Apply] on a well-formed state does to the view what [effect] says,
    returns what [effect] says, and leaves the state well-formed. In
    particular it does not panic. *)
Lemma Apply_effect (f : FSM) (log : Log) :
  wf f -> refines (Apply f log) (effect (view f) log).
Proof.
  intros Hwf. unfold Apply, effect.
  destruct (unmarshalCommand _) as [cmd|]; [|by apply refines_same].
  repeat case_decide; try by apply refines_same.
  - by apply applyPrinterCommand_effect.
  - by apply applyFilamentCommand_effect.
  - by apply applyPrintJobCommand_effect.
Qed.

End simulation.

(** ** Snapshot and restore *)

Section snapshot.
Context {json : JSON}.

(** The snapshot of a view: its three collections. *)
Lemma FSM_Snapshot_view (f : FSM) :
  wf f ->
  FSM_Snapshot f =
  Some ({| Printers := vPrinters (view f); Filaments := vFilaments (view f);
           PrintJobs := vPrintJobs (view f) |}, nil_err).
Proof.
  intros (Hp & Hf & Hj). unfold FSM_Snapshot.
  rewrite (copy_records_deref _ _ Hp), (copy_records_deref _ _ Hf),
    (copy_records_deref _ _ Hj). reflexivity.
Qed.

(** [Restore] of a stream that decodes replaces the three collections by
    the decoded ones, whatever the state was. *)
Lemma Restore_view (f : FSM) (rc : string) (s : Snapshot) :
  decodeSnapshot rc = Decoded s ->
  snd (Restore f rc) = nil_err /\
  wf (fst (Restore f rc)) /\
  view (fst (Restore f rc)) =
    {| vPrinters := Printers s; vFilaments := Filaments s; vPrintJobs := PrintJobs s |}.
Proof.
  intros Hdec. unfold Restore. rewrite Hdec.
  destruct (place_records_spec (printerAt (heap f)) (Printers s)) as (Hp1 & Hp2 & _).
  destruct (place_records_spec (filamentAt (heap f)) (Filaments s)) as (Hf1 & Hf2 & _).
  destruct (place_records_spec (printJobAt (heap f)) (PrintJobs s)) as (Hj1 & Hj2 & _).
  destruct (place_records (printerAt (heap f)) (Printers s)) as [hp ps].
  destruct (place_records (filamentAt (heap f)) (Filaments s)) as [hf fs].
  destruct (place_records (printJobAt (heap f)) (PrintJobs s)) as [hj js].
  simpl in *. unfold wf, view; simpl. rewrite Hp1, Hf1, Hj1. done.
Qed.

(** [Restore] of a stream that does not decode changes nothing. *)
Lemma Restore_error (f : FSM) (rc : string) (err : string) :
  decodeSnapshot rc = DecodeError err ->
  Restore f rc = (f, Errorf ("failed to decode snapshot: " +:+ err)).
Proof. intros Hdec. unfold Restore. by rewrite Hdec. Qed.

End snapshot.

(** ** Invariants of the reachable states *)

Lemma deduct_val (x : Filament.t) (j : PrintJob.t) :
  0 <= int_val (Filament.RemainingWeightInGrams x) ->
  0 < int_val (PrintJob.PrintWeightInGrams j) ->
  int_val (Filament.RemainingWeightInGrams (deduct x j)) =
  Z.max 0 (int_val (Filament.RemainingWeightInGrams x)
           - int_val (PrintJob.PrintWeightInGrams j)).
Proof.
  intros Hx Hj. unfold deduct; simpl. rewrite (int_sub_val _ _ Hx Hj).
  destruct (Z.ltb_spec (int_val (Filament.RemainingWeightInGrams x)
                        - int_val (PrintJob.PrintWeightInGrams j)) 0); simpl;
    rewrite ?(int_sub_val _ _ Hx Hj); lia.
Qed.

(** The deduction rewrites the remaining weight and nothing else. *)
Lemma deduct_fields (x : Filament.t) (j : PrintJob.t) :
  deduct x j =
  Filament.set_RemainingWeightInGrams x (Filament.RemainingWeightInGrams (deduct x j)).
Proof. unfold deduct. by destruct (_ <? _). Qed.

Lemma deduct_valid (x : Filament.t) (j : PrintJob.t) :
  Filament.Validate x = nil_err -> PrintJob.Validate j = nil_err ->
  Filament.Validate (deduct x j) = nil_err.
Proof.
  intros Hx Hj. apply Filament_Validate_nil in Hx as (H1 & H2 & H3 & H4 & H5).
  apply PrintJob_Validate_nil in Hj as (_ & _ & _ & _ & Hw & _).
  apply Filament_Validate_nil.
  pose proof (deduct_val x j ltac:(lia) Hw) as Hv.
  rewrite deduct_fields. simpl. repeat split; try done; lia.
Qed.

Lemma set_Status_valid (j : PrintJob.t) (s : string) :
  PrintJob.Validate j = nil_err -> PrintJob.ValidateTransition j s = nil_err ->
  PrintJob.Validate (PrintJob.set_Status j s) = nil_err.
Proof.
  intros Hj Ht. apply PrintJob_Validate_nil in Hj as (H1 & H2 & H3 & H4 & H5 & _).
  apply PrintJob_Validate_nil; simpl. repeat split; try done.
  apply validStatuses_spec. apply ValidateTransition_nil in Ht.
  unfold allowed_transition in Ht. intuition.
Qed.

Section invariants.
Context {json : JSON}.

Lemma effect_valid_records (v : View) (log : Log) :
  valid_records v -> valid_records (fst (effect v log)).
Proof.
  intros Hv. pose proof Hv as (Hp & Hf & Hj). unfold effect.
  destruct (unmarshalCommand _) as [cmd|]; [|done].
  repeat case_decide; try done.
  - unfold effectPrinterCommand.
    assert (forall p, Printer.Validate p = None ->
      valid_records {| vPrinters := <[Printer.ID p := p]> (vPrinters v);
                       vFilaments := vFilaments v; vPrintJobs := vPrintJobs v |}) as Hput.
    { intros p Hok. split; [|done]. simpl. intros id q.
      rewrite lookup_insert. case_decide; [intros [= <-]; done|apply Hp]. }
    repeat case_decide; try done.
    + destruct (unmarshalPrinter _) as [p|]; [|done].
      destruct (Printer.Validate p) eqn:Hok; [done|]. by apply Hput.
    + destruct (unmarshalPrinter _) as [p|]; [|done].
      destruct (Printer.Validate p) eqn:Hok; [done|].
      destruct (vPrinters v !! _); [|done]. by apply Hput.
    + destruct (unmarshalString _) as [id|]; [|done].
      destruct (vPrinters v !! _); [|done]. split; [|done]. simpl.
      intros id' q Hq. apply lookup_delete_Some in Hq as [_ Hq]. by apply Hp.
  - unfold effectFilamentCommand.
    assert (forall x, Filament.Validate x = None ->
      valid_records {| vPrinters := vPrinters v;
                       vFilaments := <[Filament.ID x := x]> (vFilaments v);
                       vPrintJobs := vPrintJobs v |}) as Hput.
    { intros x Hok. split; [done|]. split; [|done]. simpl. intros id q.
      rewrite lookup_insert. case_decide; [intros [= <-]; done|apply Hf]. }
    repeat case_decide; try done.
    + destruct (unmarshalFilament _) as [p|]; [|done].
      destruct (Filament.Validate p) eqn:Hok; [done|]. by apply Hput.
    + destruct (unmarshalFilament _) as [p|]; [|done].
      destruct (Filament.Validate p) eqn:Hok; [done|].
      destruct (vFilaments v !! _); [|done]. by apply Hput.
    + destruct (unmarshalString _) as [id|]; [|done].
      destruct (vFilaments v !! _); [|done]. split; [done|]. split; [|done]. simpl.
      intros id' q Hq. apply lookup_delete_Some in Hq as [_ Hq]. by apply Hf.
  - unfold effectPrintJobCommand.
    repeat case_decide; try done.
    + destruct (unmarshalPrintJob _) as [j|]; [|done]. cbv zeta.
      destruct (PrintJob.Validate _) eqn:Hok; [done|].
      destruct (vPrinters v !! _); [|done].
      destruct (vFilaments v !! _); [|done].
      destruct (_ >? _); [done|].
      split; [done|]. split; [done|]. simpl. intros id q.
      rewrite lookup_insert. case_decide; [intros [= <-]; done|apply Hj].
    + destruct (unmarshalStatusChange _) as [sc|]; [|done]. cbv zeta.
      destruct (vPrintJobs v !! _) as [j|] eqn:Hjob; [|done].
      destruct (Hj _ _ Hjob) as [Hjv Hjid].
      destruct (PrintJob.ValidateTransition _ _) eqn:Ht; [done|].
      assert (forall id q,
        <[PrintJobStatusChange.ID sc :=
            PrintJob.set_Status j (PrintJobStatusChange.Status sc)]> (vPrintJobs v)
          !! id = Some q ->
        PrintJob.Validate q = nil_err /\ PrintJob.ID q = id) as Hjobs.
      { intros id q. rewrite lookup_insert. case_decide; [|apply Hj].
        intros [= <-]. split; [by apply set_Status_valid|]. simpl. congruence. }
      case_decide; [|done].
      destruct (vFilaments v !! _) as [x|] eqn:Hfil; [|done].
      destruct (Hf _ _ Hfil) as [Hxv Hxid].
      split; [done|]. split; [|done]. simpl. intros id q.
      rewrite lookup_insert. case_decide; [|apply Hf].
      intros [= <-]. split; [by apply deduct_valid|].
      rewrite deduct_fields. simpl. congruence.
    + destruct (unmarshalString _) as [id|]; [|done].
      destruct (vPrintJobs v !! _); [|done]. split; [done|]. split; [done|]. simpl.
      intros id' q Hq. apply lookup_delete_Some in Hq as [_ Hq]. by apply Hj.
Qed.

(** A reachable state is well-formed and holds valid records only. *)
Lemma reachable_invariant (f : FSM) :
  reachable f -> wf f /\ valid_records (view f).
Proof.
  induction 1 as [h|f log _ [IHw IHv]|f f0 s rc _ _ _ [IHw0 IHv0] Hsnap Hdec].
  - split; [apply wf_NewFSM|]. rewrite view_NewFSM.
    repeat split; simpl in *; rewrite lookup_empty in *; discriminate.
  - destruct (Apply_effect f log IHw) as (Hw & _ & Hv). split; [done|].
    rewrite Hv. by apply effect_valid_records.
  - destruct (Restore_view f rc s Hdec) as (_ & Hw & Hv). split; [done|].
    rewrite Hv. rewrite (FSM_Snapshot_view f0 IHw0) in Hsnap.
    injection Hsnap as <-. exact IHv0.
Qed.

Lemma reachable_wf (f : FSM) : reachable f -> wf f.
Proof. intros H. by apply reachable_invariant. Qed.

Lemma reachable_valid (f : FSM) : reachable f -> valid_records (view f).
Proof. intros H. by apply reachable_invariant. Qed.

(** Every state of a run from a new FSM is reachable. *)
Lemma reachable_run (f : FSM) (logs : list Log) :
  reachable f -> reachable (fst (run f logs)).
Proof.
  revert f. induction logs as [|log rest IH]; intros f Hf; simpl; [done|].
  pose proof (reachable_Apply f log Hf) as H1.
  destruct (Apply f log) as [f1 o]. specialize (IH f1 H1).
  destruct (run f1 rest) as [f2 os]. exact IH.
Qed.

(** On a reachable state [Apply] returns: it does not panic. *)
Lemma Apply_returns (f : FSM) (log : Log) :
  reachable f -> exists err, snd (Apply f log) = Return err.
Proof.
  intros Hf. destruct (Apply_effect f log (reachable_wf f Hf)) as (_ & Ho & _). eauto.
Qed.

End invariants.

(** ** Determinism *)

Section determinism.
Context {json : JSON}.

(** One [Apply] on two states with the same records returns the same and
    leaves the same records, wherever the records lie in memory. *)
Lemma Apply_view_deterministic (f1 f2 : FSM) (log : Log) :
  wf f1 -> wf f2 -> view f1 = view f2 ->
  snd (Apply f1 log) = snd (Apply f2 log) /\
  view (fst (Apply f1 log)) = view (fst (Apply f2 log)) /\
  wf (fst (Apply f1 log)) /\ wf (fst (Apply f2 log)).
Proof.
  intros H1 H2 Hv.
  destruct (Apply_effect f1 log H1) as (Hw1 & Ho1 & Hv1).
  destruct (Apply_effect f2 log H2) as (Hw2 & Ho2 & Hv2).
  rewrite Ho1, Ho2, Hv1, Hv2, Hv. done.
Qed.

Lemma run_view_deterministic (logs : list Log) (f1 f2 : FSM) :
  wf f1 -> wf f2 -> view f1 = view f2 ->
  snd (run f1 logs) = snd (run f2 logs) /\
  view (fst (run f1 logs)) = view (fst (run f2 logs)).
Proof.
  revert f1 f2. induction logs as [|log rest IH]; intros f1 f2 H1 H2 Hv; simpl; [done|].
  destruct (Apply_view_deterministic f1 f2 log H1 H2 Hv) as (Ho & Hv' & Hw1 & Hw2).
  destruct (Apply f1 log) as [g1 o1], (Apply f2 log) as [g2 o2]. simpl in *.
  specialize (IH g1 g2 Hw1 Hw2 Hv').
  destruct (run g1 rest) as [k1 os1], (run g2 rest) as [k2 os2]. simpl in *.
  destruct IH as [-> ->]. by rewrite Ho.
Qed.

(** C1. Applying one sequence of commands, in order, to two new FSMs
    (which live at different places of memory: [h1] and [h2] are any two
    heaps) makes every [Apply] return the same on both, and leaves the
    same printers, filaments and print jobs with the same field values.
    [Apply] reads no clock, no random source and no file: it is the
    function [Apply] of the state and the command. *)
Theorem Apply_deterministic (h1 h2 : Heap) (logs : list Log) :
  snd (run (NewFSM h1) logs) = snd (run (NewFSM h2) logs) /\
  view (fst (run (NewFSM h1) logs)) = view (fst (run (NewFSM h2) logs)).
Proof.
  apply run_view_deterministic; [apply wf_NewFSM|apply wf_NewFSM|].
  by rewrite !view_NewFSM.
Qed.

End determinism.

(** ** Errors change nothing *)

Section errors.
Context {json : JSON}.

Lemma applyPrinterCommand_error (f : FSM) (cmd : Command) (msg : string) :
  snd (applyPrinterCommand f cmd) = Return (Errorf msg) ->
  fst (applyPrinterCommand f cmd) = f.
Proof.
  unfold applyPrinterCommand.
  repeat case_decide; try done;
    repeat (match goal with |- context [match ?x with _ => _ end] => destruct x end;
            try done).
Qed.

Lemma applyFilamentCommand_error (f : FSM) (cmd : Command) (msg : string) :
  snd (applyFilamentCommand f cmd) = Return (Errorf msg) ->
  fst (applyFilamentCommand f cmd) = f.
Proof.
  unfold applyFilamentCommand.
  repeat case_decide; try done;
    repeat (match goal with |- context [match ?x with _ => _ end] => destruct x end;
            try done).
Qed.

Lemma applyPrintJobCommand_error (f : FSM) (cmd : Command) (msg : string) :
  snd (applyPrintJobCommand f cmd) = Return (Errorf msg) ->
  fst (applyPrintJobCommand f cmd) = f.
Proof.
  unfold applyPrintJobCommand.
  repeat case_decide; try done; cbv zeta;
    repeat (match goal with |- context [match ?x with _ => _ end] => destruct x end;
            try done).
Qed.

(** An [Apply] that returns an error returns the state it was given. *)
Lemma Apply_error_state (f : FSM) (log : Log) (msg : string) :
  snd (Apply f log) = Return (Errorf msg) -> fst (Apply f log) = f.
Proof.
  unfold Apply. destruct (unmarshalCommand _) as [cmd|]; [|done].
  repeat case_decide; try done.
  - apply applyPrinterCommand_error.
  - apply applyFilamentCommand_error.
  - apply applyPrintJobCommand_error.
Qed.

(** C2. When [Apply] returns an error (the command or its payload does
    not decode, the record fails validation, an id is not found, the
    filament does not suffice, the transition is not allowed, or the
    entity kind or operation is unknown), the state after the call is the
    state before it: the three maps and every record in memory. *)
Theorem Apply_error_unchanged (f f' : FSM) (log : Log) (msg : string) :
  Apply f log = (f', Return (Errorf msg)) ->
  f' = f /\ store f' = store f /\ heap f' = heap f /\ view f' = view f.
Proof.
  intros HA. pose proof (Apply_error_state f log msg) as Hs.
  rewrite HA in Hs. simpl in Hs. rewrite Hs by reflexivity. done.
Qed.

(** C10. A command whose entity type is none of printer, filament and
    print_job is answered by an error that names the type; a command on
    one of the three kinds whose operation is none of create, update and
    delete is answered by an error that names the operation. In both
    cases the state is unchanged. *)
Theorem Apply_unknown (f : FSM) (log : Log) (cmd : Command) :
  unmarshalCommand (Data log) = Decoded cmd ->
  (EntityType cmd <> EntityPrinter -> EntityType cmd <> EntityFilament ->
   EntityType cmd <> EntityPrintJob ->
   Apply f log = (f, Return (Errorf ("unknown entity type: " +:+ EntityType cmd)))) /\
  (Op cmd <> OpCreate -> Op cmd <> OpUpdate -> Op cmd <> OpDelete ->
   (EntityType cmd = EntityPrinter ->
    Apply f log = (f, Return (Errorf ("unknown printer operation: " +:+ Op cmd)))) /\
   (EntityType cmd = EntityFilament ->
    Apply f log = (f, Return (Errorf ("unknown filament operation: " +:+ Op cmd)))) /\
   (EntityType cmd = EntityPrintJob ->
    Apply f log = (f, Return (Errorf ("unknown print job operation: " +:+ Op cmd))))).
Proof.
  intros Hcmd. unfold Apply. rewrite Hcmd. split.
  - intros. by repeat case_decide.
  - intros Hc Hu Hd. repeat split; intros Hty; rewrite Hty; simpl.
    + unfold applyPrinterCommand. by repeat case_decide.
    + unfold applyFilamentCommand. by repeat case_decide.
    + unfold applyPrintJobCommand. by repeat case_decide.
Qed.

End errors.

Lemma Apply_error_unchanged_witness :
  fst (Apply (json := RefJSON.codec) (NewFSM Examples.empty_heap)
         (Examples.set_status "j1" StatusDone))
  = NewFSM Examples.empty_heap.
Proof.
  apply (Apply_error_unchanged (json := RefJSON.codec) (NewFSM Examples.empty_heap) _
           (Examples.set_status "j1" StatusDone) "print job not found: j1").
  vm_compute. reflexivity.
Defined.

Lemma Apply_unknown_witness :
  Apply (json := RefJSON.codec) Examples.running
    (RefJSON.command "rename" "spool" (RefJSON.VStr "f1"))
  = (Examples.running, Return (Errorf "unknown entity type: spool")).
Proof.
  refine (proj1 (Apply_unknown (json := RefJSON.codec) Examples.running _
                   {| Op := "rename"; EntityType := "spool";
                      Payload := RefJSON.write (RefJSON.VStr "f1") |} _) _ _ _).
  - vm_compute. reflexivity.
  - vm_compute. discriminate.
  - vm_compute. discriminate.
  - vm_compute. discriminate.
Defined.

(** ** Create and Update of printers and filaments *)

Section create_update.
Context {json : JSON}.

(** The result of [Apply] on a reachable state, from [effect]. *)
Lemma Apply_by_effect (f : FSM) (log : Log) (v : View) (err : error) :
  reachable f -> effect (view f) log = (v, err) ->
  snd (Apply f log) = Return err /\ view (fst (Apply f log)) = v
  /\ (err <> nil_err -> fst (Apply f log) = f).
Proof.
  intros Hf He. destruct (Apply_effect f log (reachable_wf f Hf)) as (_ & Ho & Hv).
  rewrite He in Ho, Hv. simpl in *. split; [done|]. split; [done|].
  intros Hne. destruct err as [msg|]; [|done].
  by apply (Apply_error_state f log msg).
Qed.

Lemma Apply_nil_by_effect (f : FSM) (log : Log) (v : View) :
  reachable f -> effect (view f) log = (v, nil_err) ->
  snd (Apply f log) = Return nil_err /\ view (fst (Apply f log)) = v.
Proof.
  intros Hf He. destruct (Apply_by_effect f log v nil_err Hf He) as (? & ? & _). done.
Qed.

Lemma Apply_error_by_effect (f : FSM) (log : Log) (msg : string) :
  reachable f -> effect (view f) log = (view f, Errorf msg) ->
  Apply f log = (f, Return (Errorf msg)).
Proof.
  intros Hf He. destruct (Apply_by_effect f log _ _ Hf He) as (Ho & _ & Hs).
  destruct (Apply f log) as [f' o]; simpl in *. rewrite Ho, Hs; done.
Qed.

(** C8. On a reachable state, a Create of a printer, or of a filament,
    whose record passes validation returns [nil] and stores the record
    under its id, whether or not that id was taken: a record that was
    there is replaced, it is no error. An Update of a valid record whose
    id is not in the store returns the not-found error and changes
    nothing. *)
Theorem Create_overwrites_Update_requires (f : FSM) (log : Log) :
  reachable f ->
  (forall p, printer_command log OpCreate p -> Printer.Validate p = nil_err ->
     snd (Apply f log) = Return nil_err /\
     view (fst (Apply f log)) =
       {| vPrinters := <[Printer.ID p := p]> (vPrinters (view f));
          vFilaments := vFilaments (view f); vPrintJobs := vPrintJobs (view f) |}) /\
  (forall x, filament_command log OpCreate x -> Filament.Validate x = nil_err ->
     snd (Apply f log) = Return nil_err /\
     view (fst (Apply f log)) =
       {| vPrinters := vPrinters (view f);
          vFilaments := <[Filament.ID x := x]> (vFilaments (view f));
          vPrintJobs := vPrintJobs (view f) |}) /\
  (forall p, printer_command log OpUpdate p -> Printer.Validate p = nil_err ->
     vPrinters (view f) !! Printer.ID p = None ->
     Apply f log = (f, Return (Errorf ("printer not found: " +:+ Printer.ID p)))) /\
  (forall x, filament_command log OpUpdate x -> Filament.Validate x = nil_err ->
     vFilaments (view f) !! Filament.ID x = None ->
     Apply f log = (f, Return (Errorf ("filament not found: " +:+ Filament.ID x)))).
Proof.
  intros Hf. split; [|split; [|split]].
  - intros p (cmd & Hc & Hty & Hop & Hp) Hok.
    apply (Apply_nil_by_effect f log); [done|]. generalize (view f). intros v.
    unfold effect. rewrite Hc, Hty; simpl.
    unfold effectPrinterCommand. rewrite Hop, Hp; simpl. by rewrite Hok.
  - intros x (cmd & Hc & Hty & Hop & Hp) Hok.
    apply (Apply_nil_by_effect f log); [done|]. generalize (view f). intros v.
    unfold effect. rewrite Hc, Hty; simpl.
    unfold effectFilamentCommand. rewrite Hop, Hp; simpl. by rewrite Hok.
  - intros p (cmd & Hc & Hty & Hop & Hp) Hok Hnone.
    apply (Apply_error_by_effect f log); [done|].
    revert Hnone. generalize (view f). intros v Hnone.
    unfold effect. rewrite Hc, Hty; simpl.
    unfold effectPrinterCommand. rewrite Hop, Hp; simpl. by rewrite Hok, Hnone.
  - intros x (cmd & Hc & Hty & Hop & Hp) Hok Hnone.
    apply (Apply_error_by_effect f log); [done|].
    revert Hnone. generalize (view f). intros v Hnone.
    unfold effect. rewrite Hc, Hty; simpl.
    unfold effectFilamentCommand. rewrite Hop, Hp; simpl. by rewrite Hok, Hnone.
Qed.

End create_update.

(** The running example, with printer p1 created a second time under
    another model: the Create is accepted and p1 is replaced. *)
Lemma Create_overwrites_Update_requires_witness :
  vPrinters (view Examples.running) !! "p1" = Some Examples.printer_p1 /\
  snd (Apply (json := RefJSON.codec) Examples.running
         (Examples.create_printer (Printer.Make "p1" "Prusa" "MK4")))
  = Return nil_err /\
  vPrinters (view (fst (Apply (json := RefJSON.codec) Examples.running
                          (Examples.create_printer (Printer.Make "p1" "Prusa" "MK4")))))
    !! "p1" = Some (Printer.Make "p1" "Prusa" "MK4").
Proof.
  split; [vm_compute; reflexivity|].
  destruct (Create_overwrites_Update_requires (json := RefJSON.codec) Examples.running
              (Examples.create_printer (Printer.Make "p1" "Prusa" "MK4")))
    as (Hcreate & _).
  { apply reachable_run, reachable_NewFSM. }
  destruct (Hcreate (Printer.Make "p1" "Prusa" "MK4")) as [Ho Hv].
  { eexists. split; [vm_compute; reflexivity|]. repeat split; vm_compute; reflexivity. }
  { reflexivity. }
  split; [exact Ho|]. rewrite Hv. apply lookup_insert_eq.
Defined.

(** ** Print jobs: creation *)

Section printjob_create.
Context {json : JSON}.


End printjob_create.


(** ** Print jobs: the status state machine *)

(** Self-transitions, transitions out of Done and out of Cancelled, and
    Queued to Done are not allowed. *)
Lemma not_allowed_transitions (s : string) :
  ~ allowed_transition s s /\ ~ allowed_transition StatusDone s /\
  ~ allowed_transition StatusCancelled s /\
  ~ allowed_transition StatusQueued StatusDone.
Proof.
  unfold allowed_transition, StatusQueued, StatusRunning, StatusDone, StatusCancelled.
  repeat split; intros H; intuition congruence.
Qed.

Section printjob_update.
Context {json : JSON}.

Lemma effect_status_change (v : View) (log : Log) (id s : string) (j : PrintJob.t) :
  status_change log id s -> vPrintJobs v !! id = Some j ->
  effect v log =
  match PrintJob.ValidateTransition j s with
  | Some err => (v, Some err)
  | None =>
      if decide (s = StatusDone) then
        match vFilaments v !! PrintJob.FilamentID j with
        | None => (v, Errorf ("filament not found: " +:+ PrintJob.FilamentID j))
        | Some x =>
            ({| vPrinters := vPrinters v;
                vFilaments := <[PrintJob.FilamentID j := deduct x j]> (vFilaments v);
                vPrintJobs := <[id := PrintJob.set_Status j s]> (vPrintJobs v) |},
             nil_err)
        end
      else
        ({| vPrinters := vPrinters v; vFilaments := vFilaments v;
            vPrintJobs := <[id := PrintJob.set_Status j s]> (vPrintJobs v) |}, nil_err)
  end.
Proof.
  intros (cmd & Hc & Hty & Hop & Hsc) Hj.
  unfold effect. rewrite Hc, Hty; simpl.
  unfold effectPrintJobCommand. rewrite Hop, Hsc; simpl. by rewrite Hj.
Qed.

(** C3, as the code has it. On a reachable state, take a PrintJob Update
    of a stored job. If the pair (current status, requested status) is
    one of Queued to Running, Queued to Cancelled, Running to Done and
    Running to Cancelled, and, when the requested status is Done, the
    filament of the job is still in the store, then [Apply] returns [nil]
    and the job has the requested status. If the pair is Running to Done
    and the filament of the job is no longer in the store, [Apply] returns
    the filament-not-found error and the state is unchanged. For every
    other pair [Apply] returns the invalid-transition error that names
    both statuses, and the state (so the status of the job) is
    unchanged. *)
Theorem status_update (f : FSM) (log : Log) (id s : string) (j : PrintJob.t) :
  reachable f -> status_change log id s -> vPrintJobs (view f) !! id = Some j ->
  (allowed_transition (PrintJob.Status j) s ->
   (s = StatusDone -> is_Some (vFilaments (view f) !! PrintJob.FilamentID j)) ->
   snd (Apply f log) = Return nil_err /\
   vPrintJobs (view (fst (Apply f log))) =
     <[id := PrintJob.set_Status j s]> (vPrintJobs (view f))) /\
  (allowed_transition (PrintJob.Status j) s -> s = StatusDone ->
   vFilaments (view f) !! PrintJob.FilamentID j = None ->
   Apply f log =
     (f, Return (Errorf ("filament not found: " +:+ PrintJob.FilamentID j)))) /\
  (~ allowed_transition (PrintJob.Status j) s ->
   Apply f log =
     (f, Return (Errorf ("invalid status transition from " +:+ PrintJob.Status j
                         +:+ " to " +:+ s)))).
Proof.
  intros Hf Hsc Hj.
  pose proof (effect_status_change (view f) log id s j Hsc Hj) as He.
  split; [|split].
  - intros Hal Hfil. rewrite (ValidateTransition_allowed _ _ Hal) in He.
    unfold nil_err in He. case_decide as Hd.
    + destruct (Hfil Hd) as [x Hx]. rewrite Hx in He.
      destruct (Apply_nil_by_effect f log _ Hf He) as [Ho Hv]. by rewrite Hv.
    + destruct (Apply_nil_by_effect f log _ Hf He) as [Ho Hv]. by rewrite Hv.
  - intros Hal Hd Hnone. rewrite (ValidateTransition_allowed _ _ Hal) in He.
    unfold nil_err in He. rewrite decide_True in He by done. rewrite Hnone in He.
    by apply (Apply_error_by_effect f log).
  - intros Hna. rewrite (ValidateTransition_rejected _ _ Hna) in He.
    by apply (Apply_error_by_effect f log).
Qed.

End printjob_update.

(** The running example: Running to Done on j1 is accepted. *)
Lemma status_update_witness :
  snd (Apply (json := RefJSON.codec) Examples.running
         (Examples.set_status "j1" StatusDone)) = Return nil_err /\
  vPrintJobs (view (fst (Apply (json := RefJSON.codec) Examples.running
                           (Examples.set_status "j1" StatusDone))))
  = <["j1" := Examples.job_j1 400 StatusDone]> (vPrintJobs (view Examples.running)).
Proof.
  refine (proj1 (status_update (json := RefJSON.codec) Examples.running _ "j1" StatusDone
                   (Examples.job_j1 400 StatusRunning) _ _ _) _ _).
  - apply reachable_run, reachable_NewFSM.
  - eexists. split; [vm_compute; reflexivity|]. repeat split; vm_compute; reflexivity.
  - vm_compute. reflexivity.
  - right. right. left. split; reflexivity.
  - intros _. exists (Examples.filament_f1 1000). vm_compute. reflexivity.
Defined.

(** C3, as stated, fails: in [running_without_filament] job j1 is stored
    with status Running, Running to Done is one of the four pairs, and
    the Update does not succeed. *)
Lemma status_update_counterexample :
  reachable (json := RefJSON.codec) Examples2.running_without_filament /\
  status_change (json := RefJSON.codec) (Examples.set_status "j1" StatusDone)
    "j1" StatusDone /\
  vPrintJobs (view Examples2.running_without_filament) !! "j1"
    = Some (Examples.job_j1 400 StatusRunning) /\
  allowed_transition StatusRunning StatusDone /\
  Apply (json := RefJSON.codec) Examples2.running_without_filament
    (Examples.set_status "j1" StatusDone)
  = (Examples2.running_without_filament, Return (Errorf "filament not found: f1")) /\
  snd (Apply (json := RefJSON.codec) Examples2.running_without_filament
         (Examples.set_status "j1" StatusDone)) <> Return nil_err.
Proof.
  split; [apply reachable_Apply, reachable_run, reachable_NewFSM|].
  split; [eexists; split; [vm_compute; reflexivity|];
          repeat split; vm_compute; reflexivity|].
  split; [vm_compute; reflexivity|].
  split; [right; right; left; split; reflexivity|].
  split; [vm_compute; reflexivity|].
  vm_compute. discriminate.
Qed.

(** ** The deduction of filament *)

Section deduction.
Context {json : JSON}.






End deduction.


(** The other example of the specification: a spool with 50 g left and a
    job of 100 g ends at 0 g. *)
Example deduction_clamps :
  (Filament.RemainingWeightInGrams <$>
     vFilaments (view Examples2.overdrawn) !! "f1") = Some (int_of_Z 50) /\
  (Filament.RemainingWeightInGrams <$>
     vFilaments (view (fst (Apply (json := RefJSON.codec) Examples2.overdrawn
                              (Examples.set_status "j1" StatusDone)))) !! "f1")
  = Some (int_of_Z 0).
Proof. split; vm_compute; reflexivity. Qed.

(** ** The range of the remaining weight *)

Section weight_range.
Context {json : JSON}.

(** C6. In every reachable state, so after any sequence of [Apply] from
    a new FSM ([reachable_run]), every filament of the store has a
    positive total weight and a remaining weight between zero and the
    total weight. *)
Theorem filament_weight_range (f : FSM) (id : string) (a : addr) (x : Filament.t) :
  reachable f ->
  GetFilament (FSM_Store f) id = Some a -> filamentAt (heap f) !! a = Some x ->
  0 <= int_val (Filament.RemainingWeightInGrams x)
    <= int_val (Filament.TotalWeightInGrams x)
  /\ 0 < int_val (Filament.TotalWeightInGrams x).
Proof.
  intros Hf Hid Ha. destruct (reachable_valid f Hf) as (_ & Hvf & _).
  destruct (Hvf id x) as [Hok _].
  { by apply (deref_Some _ _ _ a). }
  apply Filament_Validate_nil in Hok. tauto.
Qed.

End weight_range.

Lemma filament_weight_range_witness :
  0 <= int_val (Filament.RemainingWeightInGrams (Examples.filament_f1 0))
    <= int_val (Filament.TotalWeightInGrams (Examples.filament_f1 0))
  /\ 0 < int_val (Filament.TotalWeightInGrams (Examples.filament_f1 0)).
Proof.
  apply (filament_weight_range (json := RefJSON.codec)
           (fst (Apply (json := RefJSON.codec) Examples2.overdrawn
                   (Examples.set_status "j1" StatusDone)))
           "f1" 2%positive).
  - apply reachable_Apply, reachable_run, reachable_NewFSM.
  - vm_compute. reflexivity.
  - vm_compute. reflexivity.
Defined.

(** ** Snapshot, persist, restore *)

Section roundtrip.
Context {json : JSON}.


End roundtrip.


(** ** Readers and the records of the store *)

Section readers.
Context {json : JSON}.

Lemma Apply_printerAt (f : FSM) (log : Log) (a : addr) (p : Printer.t) :
  printerAt (heap f) !! a = Some p ->
  printerAt (heap (fst (Apply f log))) !! a = Some p.
Proof.
  intros Ha. unfold Apply. destruct (unmarshalCommand _) as [cmd|]; [|done].
  repeat case_decide; try done.
  - unfold applyPrinterCommand. repeat case_decide; try done;
      repeat (match goal with |- context [match ?x with _ => _ end] => destruct x end;
              try done); simpl; by apply (alloc_keeps (printerAt (heap f))).
  - unfold applyFilamentCommand. repeat case_decide; try done;
      repeat (match goal with |- context [match ?x with _ => _ end] => destruct x end;
              try done).
  - unfold applyPrintJobCommand. repeat case_decide; try done; cbv zeta;
      repeat (match goal with |- context [match ?x with _ => _ end] => destruct x end;
              try done).
Qed.

(** The state after an accepted change to Done, cell by cell. *)
Lemma Apply_Done_cells (f : FSM) (log : Log) (id : string) (pj pf : addr)
      (j : PrintJob.t) (x : Filament.t) :
  status_change log id StatusDone ->
  printJobs (store f) !! id = Some pj -> printJobAt (heap f) !! pj = Some j ->
  filaments (store f) !! PrintJob.FilamentID j = Some pf ->
  filamentAt (heap f) !! pf = Some x ->
  PrintJob.ValidateTransition j StatusDone = nil_err ->
  Apply f log =
    (write_printJob (write_filament f pf (deduct x j)) pj
       (PrintJob.set_Status j StatusDone), Return nil_err).
Proof.
  intros (cmd & Hc & Hty & Hop & Hsc) Hpj Hj Hpf Hx Ht.
  unfold Apply. rewrite Hc, Hty; simpl.
  unfold applyPrintJobCommand. rewrite Hop, Hsc; simpl.
  rewrite Hpj, Hj. unfold nil_err in Ht. rewrite Ht; simpl. by rewrite Hpf, Hx.
Qed.

(** Closes the cases of the two lemmas below in which the cell at [a]
    is not written. *)
Ltac same :=
  match goal with
  | Ha : _ !! _ = Some _, Hsame : exists _, _ |- _ =>
      simpl; rewrite Ha; exact Hsame
  end.

Lemma Apply_filamentAt (f : FSM) (log : Log) (a : addr) (x : Filament.t) :
  filamentAt (heap f) !! a = Some x ->
  exists x',
    filamentAt (heap (fst (Apply f log))) !! a = Some x' /\
    x' = Filament.set_RemainingWeightInGrams x (Filament.RemainingWeightInGrams x') /\
    (x' <> x ->
     exists id, status_change log id StatusDone /\ snd (Apply f log) = Return nil_err).
Proof.
  intros Ha.
  assert (exists x', Some x = Some x' /\
            x' = Filament.set_RemainingWeightInGrams x (Filament.RemainingWeightInGrams x')
            /\ (x' <> x -> exists id, status_change log id StatusDone
                                      /\ snd (Apply f log) = Return nil_err)) as Hsame.
  { exists x. split; [done|]. split; [by destruct x|done]. }
  unfold status_change in *. unfold Apply in *.
  destruct (unmarshalCommand _) as [cmd|] eqn:Hc; [|by same].
  repeat case_decide; try by same.
  - unfold applyPrinterCommand in *. repeat case_decide; try (by same);
      repeat (match goal with |- context [match ?x with _ => _ end] => destruct x end;
              try (by same)).
  - unfold applyFilamentCommand in *. repeat case_decide; try (by same);
      repeat (match goal with |- context [match ?x with _ => _ end] => destruct x end;
              try (by same));
      simpl; rewrite (insert_fresh_keeps (filamentAt (heap f)) _ a x Ha); exact Hsame.
  - unfold applyPrintJobCommand in *. repeat case_decide; try (by same).
    + cbv zeta in *.
      repeat (match goal with |- context [match ?x with _ => _ end] => destruct x end;
              try (by same)).
    + destruct (unmarshalStatusChange _) as [[id s]|] eqn:Hsc; [|by same].
      simpl in *.
      destruct (printJobs (store f) !! id) as [pj|]; [|by same].
      destruct (printJobAt (heap f) !! pj) as [j|]; [|by same].
      destruct (PrintJob.ValidateTransition j s); [by same|].
      case_decide as Hd; [|by same]. subst s.
      destruct (filaments (store f) !! PrintJob.FilamentID j) as [pf|]; [|by same].
      destruct (filamentAt (heap f) !! pf) as [x0|] eqn:Hx0; [|by same].
      simpl. destruct (decide (pf = a)) as [->|Hne].
      * rewrite lookup_insert_eq. assert (x0 = x) as -> by congruence.
        exists (deduct x j). split; [done|]. split; [apply deduct_fields|].
        intros _. exists id. split; [|done]. exists cmd. done.
      * rewrite lookup_insert_ne by done. rewrite Ha. exact Hsame.
    + repeat (match goal with |- context [match ?x with _ => _ end] => destruct x end;
              try (by same)).
Qed.

Lemma Apply_printJobAt (f : FSM) (log : Log) (a : addr) (j : PrintJob.t) :
  printJobAt (heap f) !! a = Some j ->
  exists j',
    printJobAt (heap (fst (Apply f log))) !! a = Some j' /\
    j' = PrintJob.set_Status j (PrintJob.Status j') /\
    (j' <> j ->
     exists id s, status_change log id s /\ snd (Apply f log) = Return nil_err).
Proof.
  intros Ha.
  assert (exists j', Some j = Some j' /\
            j' = PrintJob.set_Status j (PrintJob.Status j')
            /\ (j' <> j -> exists id s, status_change log id s
                                        /\ snd (Apply f log) = Return nil_err)) as Hsame.
  { exists j. split; [done|]. split; [by destruct j|done]. }
  unfold status_change in *. unfold Apply in *.
  destruct (unmarshalCommand _) as [cmd|] eqn:Hc; [|by same].
  repeat case_decide; try by same.
  - unfold applyPrinterCommand in *. repeat case_decide; try (by same);
      repeat (match goal with |- context [match ?x with _ => _ end] => destruct x end;
              try (by same)).
  - unfold applyFilamentCommand in *. repeat case_decide; try (by same);
      repeat (match goal with |- context [match ?x with _ => _ end] => destruct x end;
              try (by same)).
  - unfold applyPrintJobCommand in *. repeat case_decide; try (by same).
    + cbv zeta in *.
      repeat (match goal with |- context [match ?x with _ => _ end] => destruct x end;
              try (by same));
      simpl; rewrite (insert_fresh_keeps (printJobAt (heap f)) _ a j Ha); exact Hsame.
    + destruct (unmarshalStatusChange _) as [[id s]|] eqn:Hsc; [|by same].
      simpl in *.
      destruct (printJobs (store f) !! id) as [pj|]; [|by same].
      destruct (printJobAt (heap f) !! pj) as [j0|] eqn:Hj0; [|by same].
      destruct (PrintJob.ValidateTransition j0 s); [by same|].
      assert (exists j',
        <[pj := PrintJob.set_Status j0 s]> (printJobAt (heap f)) !! a = Some j' /\
        j' = PrintJob.set_Status j (PrintJob.Status j') /\
        (j' <> j -> exists id0 s0,
           (exists cmd0, Decoded cmd = Decoded cmd0 /\ EntityType cmd0 = EntityPrintJob
              /\ Op cmd0 = OpUpdate
              /\ unmarshalStatusChange (Payload cmd0)
                 = Decoded (PrintJobStatusChange.Make id0 s0))
           /\ Return nil_err = Return nil_err)) as Hw.
      { destruct (decide (pj = a)) as [->|Hne].
        - rewrite lookup_insert_eq. assert (j0 = j) as -> by congruence.
          exists (PrintJob.set_Status j s). split; [done|]. split; [done|].
          intros _. exists id, s. split; [|done]. exists cmd. done.
        - rewrite lookup_insert_ne by done. rewrite Ha.
          exists j. split; [done|]. split; [by destruct j|done]. }
      case_decide as Hd; [|exact Hw].
      destruct (filaments (store f) !! PrintJob.FilamentID j0) as [pf|]; [|by same].
      destruct (filamentAt (heap f) !! pf) as [x0|]; [|by same].
      exact Hw.
    + repeat (match goal with |- context [match ?x with _ => _ end] => destruct x end;
              try (by same)).
Qed.

(** What an enumeration returns: the pointers of the map. *)
Lemma values_lookup (m : gmap string addr) (a : addr) :
  a ∈ (map_to_list m).*2 <-> exists id, m !! id = Some a.
Proof.
  rewrite list_elem_of_fmap. split.
  - intros ([id a'] & -> & Hin). apply elem_of_map_to_list in Hin. eauto.
  - intros (id & Hid). exists (id, a). split; [done|]. by apply elem_of_map_to_list.
Qed.

(** C9, as the code has it. The accessors return the pointers the store
    holds, not copies: what an enumeration returns are the pointers that
    get-by-id returns. Of a record a reader holds, a later [Apply]
    - never changes a printer;
    - changes a filament in its remaining weight only, and only when the
      command is an accepted PrintJob Update to Done;
    - changes a print job in its status only, and only when the command
      is an accepted PrintJob Update;
    and when a job is accepted as Done, the filament record that
    [GetFilament] returned for the job's filament is the record the
    deduction is written into, and the job record that [GetPrintJob]
    returned is the one that gets the new status. *)
Theorem readers_hold_live_records (f : FSM) (log : Log) :
  (forall a,
     (a ∈ GetPrinters (FSM_Store f) <-> exists id, GetPrinter (FSM_Store f) id = Some a) /\
     (a ∈ GetFilaments (FSM_Store f)
        <-> exists id, GetFilament (FSM_Store f) id = Some a) /\
     (a ∈ GetPrintJobs (FSM_Store f)
        <-> exists id, GetPrintJob (FSM_Store f) id = Some a)) /\
  (forall a p, printerAt (heap f) !! a = Some p ->
     printerAt (heap (fst (Apply f log))) !! a = Some p) /\
  (forall a x, filamentAt (heap f) !! a = Some x ->
     exists x',
       filamentAt (heap (fst (Apply f log))) !! a = Some x' /\
       x' = Filament.set_RemainingWeightInGrams x (Filament.RemainingWeightInGrams x') /\
       (x' <> x ->
        exists id, status_change log id StatusDone
                   /\ snd (Apply f log) = Return nil_err)) /\
  (forall a j, printJobAt (heap f) !! a = Some j ->
     exists j',
       printJobAt (heap (fst (Apply f log))) !! a = Some j' /\
       j' = PrintJob.set_Status j (PrintJob.Status j') /\
       (j' <> j ->
        exists id s, status_change log id s /\ snd (Apply f log) = Return nil_err)) /\
  (forall id pj pf j x,
     status_change log id StatusDone -> snd (Apply f log) = Return nil_err ->
     GetPrintJob (FSM_Store f) id = Some pj -> printJobAt (heap f) !! pj = Some j ->
     GetFilament (FSM_Store f) (PrintJob.FilamentID j) = Some pf ->
     filamentAt (heap f) !! pf = Some x ->
     filamentAt (heap (fst (Apply f log))) !! pf = Some (deduct x j) /\
     printJobAt (heap (fst (Apply f log))) !! pj
       = Some (PrintJob.set_Status j StatusDone)).
Proof.
  split; [intros a; repeat split; apply values_lookup|].
  split; [intros a p; apply Apply_printerAt|].
  split; [intros a x; apply Apply_filamentAt|].
  split; [intros a j; apply Apply_printJobAt|].
  intros id pj pf j x Hsc Hok Hpj Hj Hpf Hx.
  destruct (PrintJob.ValidateTransition j StatusDone) as [err|] eqn:Ht.
  - exfalso. revert Hok. destruct Hsc as (cmd & Hc & Hty & Hop & Hsc).
    unfold GetPrintJob, FSM_Store in Hpj.
    unfold Apply. rewrite Hc, Hty; simpl.
    unfold applyPrintJobCommand. rewrite Hop, Hsc; simpl.
    rewrite Hpj, Hj, Ht. done.
  - rewrite (Apply_Done_cells f log id pj pf j x Hsc Hpj Hj Hpf Hx Ht). simpl.
    by rewrite !lookup_insert_eq.
Qed.

End readers.

(** In [running] a reader got the record of spool f1; the job is then
    accepted as Done, and the record the reader holds has 600 g left. *)
Lemma readers_hold_live_records_witness :
  filamentAt (heap (fst (Apply (json := RefJSON.codec) Examples.running
                           (Examples.set_status "j1" StatusDone)))) !! 1%positive
  = Some (deduct (Examples.filament_f1 1000) (Examples.job_j1 400 StatusRunning)).
Proof.
  refine (proj1 (proj2 (proj2 (proj2 (proj2
            (readers_hold_live_records (json := RefJSON.codec) Examples.running
               (Examples.set_status "j1" StatusDone)))))
            "j1" 1%positive 1%positive (Examples.job_j1 400 StatusRunning)
            (Examples.filament_f1 1000) _ _ _ _ _ _)).
  - eexists. split; [vm_compute; reflexivity|]. repeat split; vm_compute; reflexivity.
  - vm_compute. reflexivity.
  - vm_compute. reflexivity.
  - vm_compute. reflexivity.
  - vm_compute. reflexivity.
  - vm_compute. reflexivity.
Defined.

(** C9, as stated, fails: [GetFilament] returns the pointer of the store,
    and the record behind that pointer, read before the job is done and
    again after, has changed. *)
Lemma readers_copy_counterexample :
  GetFilament (FSM_Store Examples.running) "f1" = Some 1%positive /\
  filamentAt (heap Examples.running) !! 1%positive = Some (Examples.filament_f1 1000) /\
  filamentAt (heap (fst (Apply (json := RefJSON.codec) Examples.running
                           (Examples.set_status "j1" StatusDone)))) !! 1%positive
    = Some (Examples.filament_f1 600) /\
  Examples.filament_f1 600 <> Examples.filament_f1 1000.
Proof.
  split; [vm_compute; reflexivity|].
  split; [vm_compute; reflexivity|].
  split; [vm_compute; reflexivity|].
  vm_compute. discriminate.
Qed.

(** * Further properties *)

(** ** The list of cluster nodes *)

Lemma Split_not_nil (s : string) (sep : ascii) : Split s sep <> [].
Proof.
  destruct s as [|c rest]; simpl; [done|].
  case_decide; [done|]. by destruct (Split rest sep).
Qed.

Lemma Split_length (s : string) (sep : ascii) :
  length (Split s sep) = S (Count s sep).
Proof.
  induction s as [|c rest IH]; simpl; [done|].
  case_decide; simpl; [by rewrite IH|].
  pose proof (Split_not_nil rest sep).
  destruct (Split rest sep); [done|]. exact IH.
Qed.

Lemma Join_Split (s : string) (sep : ascii) : Join (Split s sep) sep = s.
Proof.
  induction s as [|c rest IH]; simpl; [done|].
  pose proof (Split_not_nil rest sep) as Hne.
  case_decide as Hc.
  - subst c. destruct (Split rest sep) as [|p ps] eqn:Hs; [done|].
    change (Join (EmptyString :: p :: ps) sep) with (String sep (Join (p :: ps) sep)).
    by rewrite IH.
  - destruct (Split rest sep) as [|p ps] eqn:Hs; [done|].
    destruct ps as [|q qs]; simpl in *; by rewrite <- IH.
Qed.

Lemma Split_pieces (s : string) (sep : ascii) :
  Forall (fun piece => Count piece sep = O) (Split s sep).
Proof.
  induction s as [|c rest IH]; simpl; [by repeat constructor|].
  case_decide as Hc; [by constructor|].
  destruct (Split rest sep) as [|p ps]; [repeat constructor; simpl; by rewrite decide_False|].
  inversion IH; subst. constructor; [|done]. simpl. by rewrite decide_False.
Qed.

Lemma Count_app (a b : string) (c : ascii) :
  Count (a +:+ b) c = (Count a c + Count b c)%nat.
Proof.
  induction a as [|c' a IH]; simpl; [done|]. case_decide; simpl; by rewrite IH.
Qed.

Lemma Count_sep (s : string) (c : ascii) : Count (String c s) c = S (Count s c).
Proof. simpl. by rewrite decide_True. Qed.

Lemma Split_app (a b : string) (sep : ascii) :
  Count a sep = O -> Split (a +:+ String sep b) sep = a :: Split b sep.
Proof.
  induction a as [|c a IH]; simpl.
  - intros _. by rewrite decide_True.
  - case_decide; [done|]. intros Ha. by rewrite IH.
Qed.

Lemma Split_single (s : string) (sep : ascii) : Count s sep = O -> Split s sep = [s].
Proof.
  induction s as [|c s IH]; simpl; [done|].
  case_decide; [done|]. intros Hs. by rewrite IH.
Qed.

Lemma parseNodeString_one (node : string) :
  Count node "="%char = 1%nat ->
  exists id addr,
    parseNodeString node = (id, addr, nil_err) /\
    node = id +:+ "=" +:+ addr /\
    Count id "="%char = O /\ Count addr "="%char = O.
Proof.
  intros Hc. unfold parseNodeString.
  pose proof (Split_length node "="%char) as Hl.
  pose proof (Join_Split node "="%char) as Hj.
  pose proof (Split_pieces node "="%char) as Hp.
  rewrite Hc in Hl.
  destruct (Split node "="%char) as [|id [|addr [|]]]; try done.
  simpl. exists id, addr. split; [done|]. split; [by rewrite <- Hj|].
  inversion Hp as [|? ? ? Hp']; subst. by inversion Hp'; subst.
Qed.

Lemma parseNodeString_other (node : string) :
  Count node "="%char <> 1%nat ->
  parseNodeString node =
    (EmptyString, EmptyString,
     Errorf ("invalid node format, expected 'id=addr', got '" +:+ node +:+ "'")).
Proof.
  intros Hc. unfold parseNodeString. rewrite Split_length.
  rewrite decide_True; [done|]. lia.
Qed.

Lemma parseNodeString_format (id addr : string) :
  Count id "="%char = O -> Count addr "="%char = O ->
  parseNodeString (id +:+ "=" +:+ addr) = (id, addr, nil_err).
Proof.
  intros Hid Haddr. unfold parseNodeString.
  change (id +:+ "=" +:+ addr) with (id +:+ String "="%char addr).
  rewrite (Split_app _ _ _ Hid), (Split_single _ _ Haddr). done.
Qed.

(** X1. [parseNodeString] accepts exactly the strings with one [=]: it
    then returns the text before and the text after the [=], which
    contain no [=] and give the string back when put around a [=];
    every other string is refused with the error that quotes it. And a
    string built as id, [=], address from an id and an address without
    [=] parses to that id and address. *)
Theorem parseNodeString_spec (node : string) :
  (Count node "="%char = 1%nat ->
   exists id addr,
     parseNodeString node = (id, addr, nil_err) /\
     node = id +:+ "=" +:+ addr /\
     Count id "="%char = O /\ Count addr "="%char = O) /\
  (Count node "="%char <> 1%nat ->
   parseNodeString node =
     (EmptyString, EmptyString,
      Errorf ("invalid node format, expected 'id=addr', got '" +:+ node +:+ "'"))) /\
  (forall id addr,
     Count id "="%char = O -> Count addr "="%char = O ->
     parseNodeString (id +:+ "=" +:+ addr) = (id, addr, nil_err)).
Proof.
  split; [apply parseNodeString_one|].
  split; [apply parseNodeString_other|].
  apply parseNodeString_format.
Qed.

Lemma parseNodeString_spec_witness :
  exists id addr,
    parseNodeString "node1=127.0.0.1:7001" = (id, addr, nil_err) /\
    "node1=127.0.0.1:7001" = id +:+ "=" +:+ addr /\
    Count id "="%char = O /\ Count addr "="%char = O.
Proof.
  apply (proj1 (parseNodeString_spec "node1=127.0.0.1:7001")). reflexivity.
Defined.

(** The text of a server entry: id, [=], address. *)
Lemma bootstrapServers_ok (nodes : list string) :
  well_formed_nodes nodes ->
  exists servers,
    bootstrapServers nodes = inr servers /\
    (fun srv => ServerID srv +:+ "=" +:+ ServerAddress srv) <$> servers = nodes.
Proof.
  induction 1 as [|node rest Hnode _ (servers & Hs & Hfmt)]; simpl; [by exists []|].
  destruct (parseNodeString_one node Hnode) as (id & addr & -> & Hn & _).
  unfold nil_err. rewrite Hs.
  exists ({| ServerID := id; ServerAddress := addr |} :: servers).
  split; [done|]. rewrite fmap_cons, Hfmt. simpl. by rewrite <- Hn.
Qed.

Lemma bootstrapServers_first_bad (good rest : list string) (bad : string) :
  well_formed_nodes good -> Count bad "="%char <> 1%nat ->
  bootstrapServers (good ++ bad :: rest) =
    inl ("failed to parse node string: invalid node format, expected 'id=addr', got '"
         +:+ bad +:+ "'").
Proof.
  intros Hgood Hbad. induction Hgood as [|node good Hnode _ IH]; simpl.
  - by rewrite (parseNodeString_other bad Hbad).
  - destruct (parseNodeString_one node Hnode) as (id & addr & -> & _).
    unfold nil_err. by rewrite IH.
Qed.

Lemma bootstrapServers_inr (nodes : list string) (servers : list raftServer) :
  bootstrapServers nodes = inr servers -> well_formed_nodes nodes.
Proof.
  revert servers. induction nodes as [|node rest IH]; intros servers; simpl.
  - intros _. constructor.
  - destruct (decide (Count node "="%char = 1%nat)) as [Hc|Hc].
    + destruct (parseNodeString_one node Hc) as (id & addr & -> & _).
      unfold nil_err. destruct (bootstrapServers rest) as [|srvs] eqn:Hr; [done|].
      intros _. constructor; [done|]. by apply (IH srvs).
    + by rewrite (parseNodeString_other node Hc).
Qed.

(** X2. The loop of [Start] over the cluster nodes succeeds exactly when
    every node has one [=]. It then yields one server per node, in
    order, and each server's id and address, put around a [=], are its
    node. Otherwise [Start] fails with the error of the first node that
    does not have one [=], which quotes that node. *)
Theorem bootstrapServers_spec (nodes : list string) :
  ((exists servers, bootstrapServers nodes = inr servers) <-> well_formed_nodes nodes) /\
  (forall servers, bootstrapServers nodes = inr servers ->
     (fun srv => ServerID srv +:+ "=" +:+ ServerAddress srv) <$> servers = nodes) /\
  (forall (good : list string) (bad : string) (rest : list string),
     nodes = (good ++ bad :: rest)%list -> well_formed_nodes good ->
     Count bad "="%char <> 1%nat ->
     bootstrapServers nodes =
       inl ("failed to parse node string: invalid node format, expected 'id=addr', got '"
            +:+ bad +:+ "'")).
Proof.
  split; [|split].
  - split.
    + intros [servers Hs]. by apply (bootstrapServers_inr nodes servers).
    + intros Hwf. destruct (bootstrapServers_ok nodes Hwf) as (servers & Hs & _). eauto.
  - intros servers Hs.
    destruct (bootstrapServers_ok nodes (bootstrapServers_inr _ _ Hs))
      as (servers' & Hs' & Hfmt).
    congruence.
  - intros good bad rest -> Hgood Hbad. by apply bootstrapServers_first_bad.
Qed.

Lemma bootstrapServers_spec_witness :
  bootstrapServers ["node1=127.0.0.1:7001"; "node2"; "node3=127.0.0.1:7003"] =
    inl "failed to parse node string: invalid node format, expected 'id=addr', got 'node2'".
Proof.
  apply (proj2 (proj2 (bootstrapServers_spec
                         ["node1=127.0.0.1:7001"; "node2"; "node3=127.0.0.1:7003"]))
           ["node1=127.0.0.1:7001"] "node2" ["node3=127.0.0.1:7003"]).
  - reflexivity.
  - constructor; [reflexivity|constructor].
  - vm_compute. discriminate.
Defined.

(** What [main] makes of one piece of the flag. *)
Lemma clusterNodes_pieces (flag : string) :
  flag <> EmptyString ->
  clusterNodes flag =
    (fun piece =>
       if decide (Count piece "="%char = O)
       then piece +:+ "=127.0.0.1:" +:+ pretty (portBase piece)
       else piece) <$> Split flag ","%char.
Proof.
  intros Hne. unfold clusterNodes. rewrite decide_True by done.
  apply list_fmap_ext. intros i piece _. simpl.
  rewrite Split_length.
  destruct (decide (Count piece "="%char = O)) as [Hc|Hc].
  - rewrite decide_True by lia. by rewrite (Split_single _ _ Hc).
  - rewrite decide_False by lia. done.
Qed.

Lemma default_address_Count (nodeID : string) :
  Count ("127.0.0.1:" +:+ pretty (portBase nodeID)) "="%char = O.
Proof. unfold portBase. repeat case_decide; reflexivity. Qed.

(** X3. For a flag [-nodes] that is not empty, [main] hands the server
    one node per comma-separated piece of the flag, in order: a piece
    without [=] becomes that id at 127.0.0.1 with port 7001, 7002 or 7003
    for node1, node2 and node3 and port 7000 for any other id, and
    [parseNodeString] reads exactly that id and address back; a piece
    with a [=] is passed on as it is. So the loop of [Start] accepts the
    list exactly when no piece has more than one [=]. An empty flag gives
    no nodes. *)
Theorem clusterNodes_spec (flag : string) :
  clusterNodes EmptyString = [] /\
  (flag <> EmptyString ->
   length (clusterNodes flag) = S (Count flag ","%char) /\
   (forall i piece, Split flag ","%char !! i = Some piece ->
      (Count piece "="%char = O ->
       exists node,
         clusterNodes flag !! i = Some node /\
         parseNodeString node =
           (piece, "127.0.0.1:" +:+ pretty (portBase piece), nil_err)) /\
      (Count piece "="%char <> O -> clusterNodes flag !! i = Some piece)) /\
   ((exists servers, bootstrapServers (clusterNodes flag) = inr servers) <->
    Forall (fun piece => (Count piece "="%char <= 1)%nat) (Split flag ","%char))).
Proof.
  split; [done|]. intros Hne. rewrite (clusterNodes_pieces flag Hne).
  split; [by rewrite length_fmap, Split_length|]. split.
  - intros i piece Hi. rewrite list_lookup_fmap, Hi. simpl. split; intros Hc.
    + rewrite decide_True by done. eexists. split; [done|].
      change (piece +:+ "=127.0.0.1:" +:+ pretty (portBase piece))
        with (piece +:+ "=" +:+ ("127.0.0.1:" +:+ pretty (portBase piece))).
      apply parseNodeString_format; [done|apply default_address_Count].
    + by rewrite decide_False.
  - assert (forall piece,
      Count (if decide (Count piece "="%char = O)
             then piece +:+ "=127.0.0.1:" +:+ pretty (portBase piece)
             else piece) "="%char = 1%nat <-> (Count piece "="%char <= 1)%nat) as Hone.
    { intros piece. case_decide as Hc; [|lia].
      change (piece +:+ "=127.0.0.1:" +:+ pretty (portBase piece))
        with (piece +:+ String "="%char ("127.0.0.1:" +:+ pretty (portBase piece))).
      rewrite Count_app, Count_sep, default_address_Count. lia. }
    split.
    + intros [servers Hs]. apply bootstrapServers_inr in Hs.
      unfold well_formed_nodes in Hs. rewrite Forall_fmap in Hs.
      eapply Forall_impl; [exact Hs|]. intros piece Hp. by apply Hone.
    + intros Hall. destruct (bootstrapServers_ok
        ((fun piece => if decide (Count piece "="%char = O)
                       then piece +:+ "=127.0.0.1:" +:+ pretty (portBase piece)
                       else piece) <$> Split flag ","%char)) as (servers & Hs & _); [|eauto].
      unfold well_formed_nodes. rewrite Forall_fmap.
      eapply Forall_impl; [exact Hall|]. intros piece Hp. by apply Hone.
Qed.

Lemma clusterNodes_spec_witness :
  length (clusterNodes "node1,node2=10.0.0.2:7002,printshop") = 3%nat.
Proof.
  apply (proj2 (clusterNodes_spec "node1,node2=10.0.0.2:7002,printshop")).
  vm_compute. discriminate.
Defined.

(** ** Delete *)

Section delete.
Context {json : JSON}.

Lemma view_delete_printer_any (f : FSM) (id : string) :
  view (delete_printer f id) =
    {| vPrinters := delete id (vPrinters (view f));
       vFilaments := vFilaments (view f); vPrintJobs := vPrintJobs (view f) |}.
Proof. unfold delete_printer, view; simpl. by rewrite deref_delete. Qed.

Lemma view_delete_filament_any (f : FSM) (id : string) :
  view (delete_filament f id) =
    {| vPrinters := vPrinters (view f);
       vFilaments := delete id (vFilaments (view f));
       vPrintJobs := vPrintJobs (view f) |}.
Proof. unfold delete_filament, view; simpl. by rewrite deref_delete. Qed.

Lemma view_delete_printJob_any (f : FSM) (id : string) :
  view (delete_printJob f id) =
    {| vPrinters := vPrinters (view f); vFilaments := vFilaments (view f);
       vPrintJobs := delete id (vPrintJobs (view f)) |}.
Proof. unfold delete_printJob, view; simpl. by rewrite deref_delete. Qed.

(** X4. A Delete of a printer, of a filament or of a print job whose id
    is in the store returns [nil], takes that id out of its map (a
    get-by-id then finds nothing), and leaves the other ids, the other
    two collections and every record in memory as they were: jobs that
    refer to a deleted printer or filament stay. A Delete of an id that
    is not in the store returns the not-found error of its kind and
    changes nothing. *)
Theorem Delete_spec (f : FSM) (log : Log) (id : string) :
  (delete_command log EntityPrinter id ->
   (is_Some (GetPrinter (FSM_Store f) id) ->
    snd (Apply f log) = Return nil_err /\
    GetPrinter (FSM_Store (fst (Apply f log))) id = None /\
    heap (fst (Apply f log)) = heap f /\
    view (fst (Apply f log)) =
      {| vPrinters := delete id (vPrinters (view f));
         vFilaments := vFilaments (view f); vPrintJobs := vPrintJobs (view f) |}) /\
   (GetPrinter (FSM_Store f) id = None ->
    Apply f log = (f, Return (Errorf ("printer not found: " +:+ id))))) /\
  (delete_command log EntityFilament id ->
   (is_Some (GetFilament (FSM_Store f) id) ->
    snd (Apply f log) = Return nil_err /\
    GetFilament (FSM_Store (fst (Apply f log))) id = None /\
    heap (fst (Apply f log)) = heap f /\
    view (fst (Apply f log)) =
      {| vPrinters := vPrinters (view f);
         vFilaments := delete id (vFilaments (view f));
         vPrintJobs := vPrintJobs (view f) |}) /\
   (GetFilament (FSM_Store f) id = None ->
    Apply f log = (f, Return (Errorf ("filament not found: " +:+ id))))) /\
  (delete_command log EntityPrintJob id ->
   (is_Some (GetPrintJob (FSM_Store f) id) ->
    snd (Apply f log) = Return nil_err /\
    GetPrintJob (FSM_Store (fst (Apply f log))) id = None /\
    heap (fst (Apply f log)) = heap f /\
    view (fst (Apply f log)) =
      {| vPrinters := vPrinters (view f); vFilaments := vFilaments (view f);
         vPrintJobs := delete id (vPrintJobs (view f)) |}) /\
   (GetPrintJob (FSM_Store f) id = None ->
    Apply f log = (f, Return (Errorf ("print job not found: " +:+ id))))).
Proof.
  unfold GetPrinter, GetFilament, GetPrintJob, FSM_Store.
  split; [|split]; intros (cmd & Hc & Hty & Hop & Hid);
    unfold Apply; rewrite Hc, Hty; simpl.
  - unfold applyPrinterCommand. rewrite Hop, Hid; simpl. split.
    + intros [a Ha]. rewrite Ha. simpl. rewrite lookup_delete_eq.
      by rewrite view_delete_printer_any.
    + by intros ->.
  - unfold applyFilamentCommand. rewrite Hop, Hid; simpl. split.
    + intros [a Ha]. rewrite Ha. simpl. rewrite lookup_delete_eq.
      by rewrite view_delete_filament_any.
    + by intros ->.
  - unfold applyPrintJobCommand. rewrite Hop, Hid; simpl. split.
    + intros [a Ha]. rewrite Ha. simpl. rewrite lookup_delete_eq.
      by rewrite view_delete_printJob_any.
    + by intros ->.
Qed.

End delete.

(** The running example: the spool is deleted, the job on it stays. *)
Lemma Delete_spec_witness :
  snd (Apply (json := RefJSON.codec) Examples.running
         (Examples.delete_filament_log "f1")) = Return nil_err /\
  GetFilament (FSM_Store (fst (Apply (json := RefJSON.codec) Examples.running
                                (Examples.delete_filament_log "f1")))) "f1" = None /\
  heap (fst (Apply (json := RefJSON.codec) Examples.running
              (Examples.delete_filament_log "f1"))) = heap Examples.running /\
  view (fst (Apply (json := RefJSON.codec) Examples.running
              (Examples.delete_filament_log "f1"))) =
    {| vPrinters := vPrinters (view Examples.running);
       vFilaments := delete "f1" (vFilaments (view Examples.running));
       vPrintJobs := vPrintJobs (view Examples.running) |}.
Proof.
  refine (proj1 (proj1 (proj2 (Delete_spec (json := RefJSON.codec) Examples.running
                                 (Examples.delete_filament_log "f1") "f1")) _) _).
  - eexists. split; [vm_compute; reflexivity|]. repeat split; vm_compute; reflexivity.
  - exists 1%positive. vm_compute. reflexivity.
Defined.

(** ** Update of printers and filaments *)

Section update.
Context {json : JSON}.

Lemma store_printer_cells (f : FSM) (id : string) (p old : Printer.t) (a : addr) :
  printerAt (heap f) !! a = Some old ->
  exists a',
    GetPrinter (FSM_Store (store_printer f id p)) id = Some a' /\ a' <> a /\
    printerAt (heap (store_printer f id p)) !! a' = Some p /\
    printerAt (heap (store_printer f id p)) !! a = Some old /\
    forall id', id' <> id ->
      GetPrinter (FSM_Store (store_printer f id p)) id' = GetPrinter (FSM_Store f) id'.
Proof.
  intros Ha. pose proof (alloc_fresh (printerAt (heap f)) p) as Hfresh.
  unfold GetPrinter, FSM_Store, store_printer, alloc in *; simpl in *.
  exists (fresh (dom (printerAt (heap f)))).
  rewrite !lookup_insert_eq. split; [done|]. split; [congruence|]. split; [done|].
  split; [by apply insert_fresh_keeps|].
  intros id' Hne. by rewrite lookup_insert_ne.
Qed.

Lemma store_filament_cells (f : FSM) (id : string) (x old : Filament.t) (a : addr) :
  filamentAt (heap f) !! a = Some old ->
  exists a',
    GetFilament (FSM_Store (store_filament f id x)) id = Some a' /\ a' <> a /\
    filamentAt (heap (store_filament f id x)) !! a' = Some x /\
    filamentAt (heap (store_filament f id x)) !! a = Some old /\
    forall id', id' <> id ->
      GetFilament (FSM_Store (store_filament f id x)) id'
      = GetFilament (FSM_Store f) id'.
Proof.
  intros Ha. pose proof (alloc_fresh (filamentAt (heap f)) x) as Hfresh.
  unfold GetFilament, FSM_Store, store_filament, alloc in *; simpl in *.
  exists (fresh (dom (filamentAt (heap f)))).
  rewrite !lookup_insert_eq. split; [done|]. split; [congruence|]. split; [done|].
  split; [by apply insert_fresh_keeps|].
  intros id' Hne. by rewrite lookup_insert_ne.
Qed.

(** X5. An Update of a printer, or of a filament, whose record passes
    validation and whose id is in the store returns [nil] and puts the
    whole decoded record under the id, in a new cell: get-by-id returns a
    new pointer, the pointer it returned before still reads the old
    record, and the pointers of the other ids are the same as before. *)
Theorem Update_replaces (f : FSM) (log : Log) :
  (forall p a old,
     printer_command log OpUpdate p -> Printer.Validate p = nil_err ->
     GetPrinter (FSM_Store f) (Printer.ID p) = Some a ->
     printerAt (heap f) !! a = Some old ->
     snd (Apply f log) = Return nil_err /\
     exists a',
       GetPrinter (FSM_Store (fst (Apply f log))) (Printer.ID p) = Some a' /\
       a' <> a /\
       printerAt (heap (fst (Apply f log))) !! a' = Some p /\
       printerAt (heap (fst (Apply f log))) !! a = Some old /\
       forall id', id' <> Printer.ID p ->
         GetPrinter (FSM_Store (fst (Apply f log))) id' = GetPrinter (FSM_Store f) id') /\
  (forall x a old,
     filament_command log OpUpdate x -> Filament.Validate x = nil_err ->
     GetFilament (FSM_Store f) (Filament.ID x) = Some a ->
     filamentAt (heap f) !! a = Some old ->
     snd (Apply f log) = Return nil_err /\
     exists a',
       GetFilament (FSM_Store (fst (Apply f log))) (Filament.ID x) = Some a' /\
       a' <> a /\
       filamentAt (heap (fst (Apply f log))) !! a' = Some x /\
       filamentAt (heap (fst (Apply f log))) !! a = Some old /\
       forall id', id' <> Filament.ID x ->
         GetFilament (FSM_Store (fst (Apply f log))) id'
         = GetFilament (FSM_Store f) id').
Proof.
  split.
  - intros p a old (cmd & Hc & Hty & Hop & Hp) Hok Hid Ha.
    unfold GetPrinter, FSM_Store in Hid.
    assert (Apply f log = (store_printer f (Printer.ID p) p, Return nil_err)) as ->.
    { unfold Apply. rewrite Hc, Hty; simpl.
      unfold applyPrinterCommand. rewrite Hop, Hp; simpl.
      unfold nil_err in Hok. by rewrite Hok, Hid. }
    split; [done|]. by apply (store_printer_cells f _ p old a).
  - intros x a old (cmd & Hc & Hty & Hop & Hx) Hok Hid Ha.
    unfold GetFilament, FSM_Store in Hid.
    assert (Apply f log = (store_filament f (Filament.ID x) x, Return nil_err)) as ->.
    { unfold Apply. rewrite Hc, Hty; simpl.
      unfold applyFilamentCommand. rewrite Hop, Hx; simpl.
      unfold nil_err in Hok. by rewrite Hok, Hid. }
    split; [done|]. by apply (store_filament_cells f _ x old a).
Qed.

End update.

(** The running example: the spool f1 is updated to 50 g; the pointer a
    reader got before still reads 1000 g. *)
Lemma Update_replaces_witness :
  exists a',
    GetFilament (FSM_Store (fst (Apply (json := RefJSON.codec) Examples.running
                                   (Examples.update_filament (Examples.filament_f1 50)))))
      "f1" = Some a' /\
    a' <> 1%positive /\
    filamentAt (heap (fst (Apply (json := RefJSON.codec) Examples.running
                            (Examples.update_filament (Examples.filament_f1 50)))))
      !! a' = Some (Examples.filament_f1 50) /\
    filamentAt (heap (fst (Apply (json := RefJSON.codec) Examples.running
                            (Examples.update_filament (Examples.filament_f1 50)))))
      !! 1%positive = Some (Examples.filament_f1 1000).
Proof.
  destruct (proj2 (Update_replaces (json := RefJSON.codec) Examples.running
                     (Examples.update_filament (Examples.filament_f1 50)))
              (Examples.filament_f1 50) 1%positive (Examples.filament_f1 1000))
    as (_ & a' & H1 & H2 & H3 & H4 & _).
  - eexists. split; [vm_compute; reflexivity|]. repeat split; vm_compute; reflexivity.
  - reflexivity.
  - vm_compute. reflexivity.
  - vm_compute. reflexivity.
  - exists a'. done.
Defined.

(** ** The checks of a PrintJob Create *)

Section create_checks.
Context {json : JSON}.

Lemma effect_create_printJob (v : View) (log : Log) (j0 : PrintJob.t) :
  create_printJob log j0 ->
  effect v log =
  let j := PrintJob.set_Status j0 StatusQueued in
  match PrintJob.Validate j with
  | Some err => (v, Some err)
  | None =>
      match vPrinters v !! PrintJob.PrinterID j0 with
      | None => (v, Errorf ("printer not found: " +:+ PrintJob.PrinterID j0))
      | Some _ =>
          match vFilaments v !! PrintJob.FilamentID j0 with
          | None => (v, Errorf ("filament not found: " +:+ PrintJob.FilamentID j0))
          | Some x =>
              if int_val (PrintJob.PrintWeightInGrams j0)
                 >? int_val (Filament.RemainingWeightInGrams x)
              then (v, Errorf ("insufficient filament: required "
                               +:+ fmt_d (PrintJob.PrintWeightInGrams j0)
                               +:+ " g, available "
                               +:+ fmt_d (Filament.RemainingWeightInGrams x) +:+ " g"))
              else ({| vPrinters := vPrinters v; vFilaments := vFilaments v;
                       vPrintJobs := <[PrintJob.ID j0 := j]> (vPrintJobs v) |}, nil_err)
          end
      end
  end.
Proof.
  intros (cmd & Hc & Hty & Hop & Hj).
  unfold effect. rewrite Hc, Hty; simpl.
  unfold effectPrintJobCommand. rewrite Hop, Hj; simpl. done.
Qed.

(** X6. On a reachable state a PrintJob Create runs its checks in this
    order and stops at the first that fails, changing nothing: the
    validation of the record with its status set to Queued (so the
    submitted status plays no part, be it empty or unknown), then the
    printer ("printer not found"), then the filament ("filament not
    found"). When the Create is accepted, the job stored under the id is
    the submitted record with status Queued. *)
Theorem PrintJob_Create_checks (f : FSM) (log : Log) (j0 : PrintJob.t) :
  reachable f -> create_printJob log j0 ->
  (PrintJob.Validate (PrintJob.set_Status j0 StatusQueued) = nil_err <->
   PrintJob.ID j0 <> EmptyString /\ PrintJob.PrinterID j0 <> EmptyString /\
   PrintJob.FilamentID j0 <> EmptyString /\ PrintJob.Filepath j0 <> EmptyString /\
   0 < int_val (PrintJob.PrintWeightInGrams j0)) /\
  (forall err, PrintJob.Validate (PrintJob.set_Status j0 StatusQueued) = Some err ->
     Apply f log = (f, Return (Errorf err))) /\
  (PrintJob.Validate (PrintJob.set_Status j0 StatusQueued) = nil_err ->
   vPrinters (view f) !! PrintJob.PrinterID j0 = None ->
   Apply f log =
     (f, Return (Errorf ("printer not found: " +:+ PrintJob.PrinterID j0)))) /\
  (PrintJob.Validate (PrintJob.set_Status j0 StatusQueued) = nil_err ->
   is_Some (vPrinters (view f) !! PrintJob.PrinterID j0) ->
   vFilaments (view f) !! PrintJob.FilamentID j0 = None ->
   Apply f log =
     (f, Return (Errorf ("filament not found: " +:+ PrintJob.FilamentID j0)))) /\
  (snd (Apply f log) = Return nil_err ->
   vPrintJobs (view (fst (Apply f log))) !! PrintJob.ID j0
   = Some (PrintJob.set_Status j0 StatusQueued)).
Proof.
  intros Hf Hcreate.
  pose proof (effect_create_printJob (view f) log j0 Hcreate) as He. cbv zeta in He.
  split; [|split; [|split; [|split]]].
  - rewrite PrintJob_Validate_nil. simpl.
    assert (index_bool PrintJob.validStatuses StatusQueued = true) as Hq by reflexivity.
    tauto.
  - intros err Herr. rewrite Herr in He. by apply (Apply_error_by_effect f log).
  - intros Hok Hp. unfold nil_err in Hok. rewrite Hok, Hp in He.
    by apply (Apply_error_by_effect f log).
  - intros Hok [p Hp] Hx. unfold nil_err in Hok. rewrite Hok, Hp, Hx in He.
    by apply (Apply_error_by_effect f log).
  - intros Hnil.
    destruct (Apply_effect f log (reachable_wf f Hf)) as (_ & Ho & Hv).
    rewrite Ho in Hnil. injection Hnil as Hnil. rewrite Hv. rewrite He in Hnil |- *.
    destruct (PrintJob.Validate _); [done|].
    destruct (vPrinters (view f) !! _); [|done].
    destruct (vFilaments (view f) !! _); [|done].
    destruct (_ >? _); [done|]. simpl. apply lookup_insert_eq.
Qed.

End create_checks.

(** On a new FSM a job that names printer p1 is refused: no printer. The
    submitted status, not one of the four, is no obstacle before that. *)
Lemma PrintJob_Create_checks_witness :
  Apply (json := RefJSON.codec) (NewFSM Examples.empty_heap)
    (Examples.create_job (Examples.job_j1 400 "Paused"))
  = (NewFSM Examples.empty_heap, Return (Errorf "printer not found: p1")).
Proof.
  refine (proj1 (proj2 (proj2 (PrintJob_Create_checks (json := RefJSON.codec)
            (NewFSM Examples.empty_heap)
            (Examples.create_job (Examples.job_j1 400 "Paused"))
            (Examples.job_j1 400 "Paused") _ _))) _ _).
  - apply reachable_NewFSM.
  - eexists. split; [vm_compute; reflexivity|]. repeat split; vm_compute; reflexivity.
  - reflexivity.
  - vm_compute. reflexivity.
Defined.

(** ** Commands on one kind and the other kinds *)

Section kinds.
Context {json : JSON}.

Lemma effect_kind_frame (v : View) (log : Log) :
  (command_on log EntityPrinter ->
   vFilaments (fst (effect v log)) = vFilaments v /\
   vPrintJobs (fst (effect v log)) = vPrintJobs v) /\
  (command_on log EntityFilament ->
   vPrinters (fst (effect v log)) = vPrinters v /\
   vPrintJobs (fst (effect v log)) = vPrintJobs v) /\
  (command_on log EntityPrintJob ->
   vPrinters (fst (effect v log)) = vPrinters v).
Proof.
  split; [|split]; intros (cmd & Hc & Hty); unfold effect; rewrite Hc, Hty; simpl.
  - unfold effectPrinterCommand.
    repeat case_decide; try done;
      repeat (match goal with |- context [match ?x with _ => _ end] => destruct x end;
              try done).
  - unfold effectFilamentCommand.
    repeat case_decide; try done;
      repeat (match goal with |- context [match ?x with _ => _ end] => destruct x end;
              try done).
  - unfold effectPrintJobCommand.
    repeat case_decide; try done; cbv zeta;
      repeat (match goal with |- context [match ?x with _ => _ end] => destruct x end;
              try done).
Qed.

(** X7. On a reachable state, whatever the operation and whether it is
    accepted or not: a printer command leaves the filaments and the print
    jobs as they were, a filament command leaves the printers and the
    print jobs as they were, and a print job command leaves the printers
    as they were. In particular nothing cascades: deleting or replacing a
    printer or a filament leaves the jobs that name it in the store. *)
Theorem Apply_kind_frame (f : FSM) (log : Log) :
  reachable f ->
  (command_on log EntityPrinter ->
   vFilaments (view (fst (Apply f log))) = vFilaments (view f) /\
   vPrintJobs (view (fst (Apply f log))) = vPrintJobs (view f)) /\
  (command_on log EntityFilament ->
   vPrinters (view (fst (Apply f log))) = vPrinters (view f) /\
   vPrintJobs (view (fst (Apply f log))) = vPrintJobs (view f)) /\
  (command_on log EntityPrintJob ->
   vPrinters (view (fst (Apply f log))) = vPrinters (view f)).
Proof.
  intros Hf. destruct (Apply_effect f log (reachable_wf f Hf)) as (_ & _ & ->).
  apply effect_kind_frame.
Qed.

End kinds.

Lemma Apply_kind_frame_witness :
  vPrinters (view (fst (Apply (json := RefJSON.codec) Examples.running
                          (Examples.delete_filament_log "f1"))))
    = vPrinters (view Examples.running) /\
  vPrintJobs (view (fst (Apply (json := RefJSON.codec) Examples.running
                           (Examples.delete_filament_log "f1"))))
    = vPrintJobs (view Examples.running).
Proof.
  apply (proj1 (proj2 (Apply_kind_frame (json := RefJSON.codec) Examples.running
                         (Examples.delete_filament_log "f1")
                         ltac:(apply reachable_run, reachable_NewFSM)))).
  eexists. split; [vm_compute; reflexivity|]. vm_compute. reflexivity.
Defined.

(** ** What every reachable state holds *)

Section stored.
Context {json : JSON}.

(** X8. In every reachable state each record is stored under its own id
    and satisfies what its [Validate] asks: a printer has an id, a
    company and a model; a filament has an id, one of the four types and
    a colour; a print job has an id, a printer id, a filament id, a file
    path, a positive print weight and one of the four statuses. *)
Theorem stored_records_valid (f : FSM) :
  reachable f ->
  (forall id a p,
     GetPrinter (FSM_Store f) id = Some a -> printerAt (heap f) !! a = Some p ->
     Printer.ID p = id /\ id <> EmptyString /\
     Printer.Company p <> EmptyString /\ Printer.Model p <> EmptyString) /\
  (forall id a x,
     GetFilament (FSM_Store f) id = Some a -> filamentAt (heap f) !! a = Some x ->
     Filament.ID x = id /\ id <> EmptyString /\
     (Filament.Type_ x = "PLA" \/ Filament.Type_ x = "PETG" \/
      Filament.Type_ x = "ABS" \/ Filament.Type_ x = "TPU") /\
     Filament.Color x <> EmptyString) /\
  (forall id a j,
     GetPrintJob (FSM_Store f) id = Some a -> printJobAt (heap f) !! a = Some j ->
     PrintJob.ID j = id /\ id <> EmptyString /\
     PrintJob.PrinterID j <> EmptyString /\ PrintJob.FilamentID j <> EmptyString /\
     PrintJob.Filepath j <> EmptyString /\
     0 < int_val (PrintJob.PrintWeightInGrams j) /\
     (PrintJob.Status j = StatusQueued \/ PrintJob.Status j = StatusRunning \/
      PrintJob.Status j = StatusDone \/ PrintJob.Status j = StatusCancelled)).
Proof.
  intros Hf. destruct (reachable_valid f Hf) as (Hp & Hx & Hj).
  unfold GetPrinter, GetFilament, GetPrintJob, FSM_Store.
  split; [|split].
  - intros id a p Hid Ha. destruct (Hp id p) as [Hok <-].
    { by apply (deref_Some _ _ _ a). }
    apply Printer_Validate_nil in Hok. tauto.
  - intros id a x Hid Ha. destruct (Hx id x) as [Hok <-].
    { by apply (deref_Some _ _ _ a). }
    apply Filament_Validate_nil in Hok as (? & Hty & ? & _).
    apply validTypes_spec in Hty. tauto.
  - intros id a j Hid Ha. destruct (Hj id j) as [Hok <-].
    { by apply (deref_Some _ _ _ a). }
    apply PrintJob_Validate_nil in Hok as (? & ? & ? & ? & ? & Hst).
    apply validStatuses_spec in Hst. tauto.
Qed.

Lemma values_NoDup {T : Type} (h : gmap addr T) (m : gmap string addr) :
  pointers_ok h m -> NoDup (map_to_list m).*2.
Proof.
  intros [_ Hinj]. apply NoDup_fmap_2_strong; [|apply NoDup_map_to_list].
  intros [k1 a1] [k2 a2] H1 H2 Heq. simpl in Heq. subst a2.
  apply elem_of_map_to_list in H1, H2. by rewrite (Hinj k1 k2 a1 H1 H2).
Qed.

Lemma values_live {T : Type} (h : gmap addr T) (m : gmap string addr) :
  pointers_ok h m -> Forall (fun a => is_Some (h !! a)) (map_to_list m).*2.
Proof.
  intros [Hv _]. apply Forall_forall. intros a Ha.
  apply values_lookup in Ha as [id Hid]. eauto.
Qed.

(** X9. In every reachable state each of the three enumerations returns
    one pointer per stored id (its length is the number of ids), no
    pointer twice, and every pointer it returns points to a record. *)
Theorem enumerations_spec (f : FSM) :
  reachable f ->
  (length (GetPrinters (FSM_Store f)) = size (printers (store f)) /\
   NoDup (GetPrinters (FSM_Store f)) /\
   Forall (fun a => is_Some (printerAt (heap f) !! a)) (GetPrinters (FSM_Store f))) /\
  (length (GetFilaments (FSM_Store f)) = size (filaments (store f)) /\
   NoDup (GetFilaments (FSM_Store f)) /\
   Forall (fun a => is_Some (filamentAt (heap f) !! a)) (GetFilaments (FSM_Store f))) /\
  (length (GetPrintJobs (FSM_Store f)) = size (printJobs (store f)) /\
   NoDup (GetPrintJobs (FSM_Store f)) /\
   Forall (fun a => is_Some (printJobAt (heap f) !! a)) (GetPrintJobs (FSM_Store f))).
Proof.
  intros Hf. destruct (reachable_wf f Hf) as (Hp & Hx & Hj).
  unfold GetPrinters, GetFilaments, GetPrintJobs, FSM_Store.
  rewrite !length_fmap, !length_map_to_list.
  split; [|split]; (split; [done|]); split.
  - by apply (values_NoDup (printerAt (heap f))).
  - by apply values_live.
  - by apply (values_NoDup (filamentAt (heap f))).
  - by apply values_live.
  - by apply (values_NoDup (printJobAt (heap f))).
  - by apply values_live.
Qed.


End stored.

Lemma stored_records_valid_witness :
  PrintJob.ID (Examples.job_j1 400 StatusDone) = "j1" /\ "j1" <> EmptyString /\
  PrintJob.PrinterID (Examples.job_j1 400 StatusDone) <> EmptyString /\
  PrintJob.FilamentID (Examples.job_j1 400 StatusDone) <> EmptyString /\
  PrintJob.Filepath (Examples.job_j1 400 StatusDone) <> EmptyString /\
  0 < int_val (PrintJob.PrintWeightInGrams (Examples.job_j1 400 StatusDone)) /\
  (PrintJob.Status (Examples.job_j1 400 StatusDone) = StatusQueued \/
   PrintJob.Status (Examples.job_j1 400 StatusDone) = StatusRunning \/
   PrintJob.Status (Examples.job_j1 400 StatusDone) = StatusDone \/
   PrintJob.Status (Examples.job_j1 400 StatusDone) = StatusCancelled).
Proof.
  apply (proj2 (proj2 (stored_records_valid (json := RefJSON.codec) Examples3.finished
                         ltac:(apply reachable_Apply, reachable_run, reachable_NewFSM)))
           "j1" 1%positive).
  - vm_compute. reflexivity.
  - vm_compute. reflexivity.
Defined.

Lemma enumerations_spec_witness :
  length (GetFilaments (FSM_Store Examples3.finished))
    = size (filaments (store Examples3.finished)) /\
  NoDup (GetFilaments (FSM_Store Examples3.finished)) /\
  Forall (fun a => is_Some (filamentAt (heap Examples3.finished) !! a))
         (GetFilaments (FSM_Store Examples3.finished)).
Proof.
  apply (enumerations_spec (json := RefJSON.codec) Examples3.finished).
  apply reachable_Apply, reachable_run, reachable_NewFSM.
Defined.


(** ** How a stored job and a stored filament change *)

Section evolution.
Context {json : JSON}.

Lemma effect_job_evolution (v : View) (log : Log) (id : string) (j : PrintJob.t) :
  vPrintJobs v !! id = Some j ->
  ~ printJob_command log OpCreate -> ~ printJob_command log OpDelete ->
  vPrintJobs (fst (effect v log)) !! id = Some j \/
  exists s, allowed_transition (PrintJob.Status j) s /\
            status_change log id s /\ snd (effect v log) = nil_err /\
            vPrintJobs (fst (effect v log)) !! id = Some (PrintJob.set_Status j s).
Proof.
  intros Hj Hnc Hnd. unfold printJob_command, status_change, effect in *.
  destruct (unmarshalCommand _) as [cmd|] eqn:Hc; [|by left].
  repeat case_decide; try (by left).
  - left. unfold effectPrinterCommand.
    repeat case_decide; try done;
      repeat (match goal with |- context [match ?x with _ => _ end] => destruct x end;
              try done).
  - left. unfold effectFilamentCommand.
    repeat case_decide; try done;
      repeat (match goal with |- context [match ?x with _ => _ end] => destruct x end;
              try done).
  - unfold effectPrintJobCommand. repeat case_decide; try (by left).
    + exfalso. apply Hnc. eauto.
    + destruct (unmarshalStatusChange _) as [[id' s]|] eqn:Hsc; [|by left]. simpl.
      destruct (vPrintJobs v !! id') as [j'|] eqn:Hj'; [|by left].
      destruct (PrintJob.ValidateTransition j' s) eqn:Ht; [by left|].
      destruct (decide (id' = id)) as [->|Hne].
      * assert (j' = j) as -> by congruence.
        apply ValidateTransition_nil in Ht.
        case_decide.
        -- destruct (vFilaments v !! _); [|by left]. right. exists s. simpl.
           rewrite lookup_insert_eq. split; [done|]. split; [|done]. eauto.
        -- right. exists s. simpl.
           rewrite lookup_insert_eq. split; [done|]. split; [|done]. eauto.
      * left. case_decide.
        -- destruct (vFilaments v !! _); [|done]. simpl. by rewrite lookup_insert_ne.
        -- simpl. by rewrite lookup_insert_ne.
    + exfalso. apply Hnd. eauto.
Qed.

(** X11. On a reachable state, a job in the store is changed by one
    [Apply] only in these ways, unless the command is a PrintJob Create
    or Delete: it stays as it is, or the command is an accepted Update of
    this job to a status [s], the step from its status to [s] is one of
    the four allowed ones, and the job is the same record with status
    [s]. Printer and filament commands, rejected commands and Updates of
    other jobs leave it as it is. *)
Theorem job_evolution (f : FSM) (log : Log) (id : string) (j : PrintJob.t) :
  reachable f -> vPrintJobs (view f) !! id = Some j ->
  ~ printJob_command log OpCreate -> ~ printJob_command log OpDelete ->
  vPrintJobs (view (fst (Apply f log))) !! id = Some j \/
  exists s, allowed_transition (PrintJob.Status j) s /\
            status_change log id s /\ snd (Apply f log) = Return nil_err /\
            vPrintJobs (view (fst (Apply f log))) !! id
            = Some (PrintJob.set_Status j s).
Proof.
  intros Hf Hj Hnc Hnd.
  destruct (Apply_effect f log (reachable_wf f Hf)) as (_ & -> & ->).
  destruct (effect_job_evolution (view f) log id j Hj Hnc Hnd)
    as [?|(s & ? & ? & -> & ?)]; [by left|].
  right. exists s. done.
Qed.

Lemma filament_used_refl (x : Filament.t) :
  0 <= int_val (Filament.RemainingWeightInGrams x) -> filament_used x x.
Proof. intros Hx. split; [by destruct x|lia]. Qed.

Lemma filament_used_trans (x y z : Filament.t) :
  filament_used x y -> filament_used y z -> filament_used x z.
Proof.
  intros [Hy Hxy] [Hz Hyz]. split; [|lia].
  rewrite Hz, Hy. by destruct x.
Qed.

Lemma option_filament_used_trans (o1 o2 o3 : option Filament.t) :
  option_Forall2 filament_used o1 o2 -> option_Forall2 filament_used o2 o3 ->
  option_Forall2 filament_used o1 o3.
Proof.
  intros H12 H23. destruct H12 as [x y Hxy|]; inversion H23 as [y' z Hyz|]; subst;
    constructor. by apply (filament_used_trans x y z).
Qed.

Lemma effect_filament_used (v : View) (log : Log) (id : string) :
  valid_records v -> ~ command_on log EntityFilament ->
  option_Forall2 filament_used (vFilaments v !! id) (vFilaments (fst (effect v log)) !! id).
Proof.
  intros (_ & Hvf & Hvj) Hnf.
  assert (option_Forall2 filament_used (vFilaments v !! id) (vFilaments v !! id)) as Hsame.
  { destruct (vFilaments v !! id) as [x|] eqn:Hx; constructor.
    destruct (Hvf _ _ Hx) as [Hok _].
    apply Filament_Validate_nil in Hok. apply filament_used_refl. lia. }
  unfold command_on, effect in *.
  destruct (unmarshalCommand _) as [cmd|] eqn:Hc; [|done].
  repeat case_decide; try done.
  - unfold effectPrinterCommand.
    repeat case_decide; try done;
      repeat (match goal with |- context [match ?x with _ => _ end] => destruct x end;
              try done).
  - exfalso. apply Hnf. eauto.
  - unfold effectPrintJobCommand. repeat case_decide; try done.
    + cbv zeta.
      repeat (match goal with |- context [match ?x with _ => _ end] => destruct x end;
              try done).
    + destruct (unmarshalStatusChange _) as [[id' s]|]; [|done]. simpl.
      destruct (vPrintJobs v !! id') as [j|] eqn:Hj; [|done].
      destruct (PrintJob.ValidateTransition j s); [done|].
      case_decide; [|done].
      destruct (vFilaments v !! PrintJob.FilamentID j) as [x|] eqn:Hx; [|done]. simpl.
      destruct (decide (PrintJob.FilamentID j = id)) as [<-|Hne];
        [|by rewrite lookup_insert_ne].
      rewrite lookup_insert_eq, Hx. constructor.
      destruct (Hvf _ _ Hx) as [Hxok _]. destruct (Hvj _ _ Hj) as [Hjok _].
      apply Filament_Validate_nil in Hxok as (_ & _ & _ & _ & Hr).
      apply PrintJob_Validate_nil in Hjok as (_ & _ & _ & _ & Hw & _).
      split; [apply deduct_fields|]. rewrite deduct_val by lia. lia.
    + repeat (match goal with |- context [match ?x with _ => _ end] => destruct x end;
              try done).
Qed.

Lemma run_cons_fst (f : FSM) (log : Log) (rest : list Log) :
  fst (run f (log :: rest)) = fst (run (fst (Apply f log)) rest).
Proof.
  simpl. destruct (Apply f log) as [f1 o]. simpl. by destruct (run f1 rest).
Qed.

Lemma run_cons_snd (f : FSM) (log : Log) (rest : list Log) :
  snd (run f (log :: rest)) = snd (Apply f log) :: snd (run (fst (Apply f log)) rest).
Proof.
  simpl. destruct (Apply f log) as [f1 o]. simpl. by destruct (run f1 rest).
Qed.

(** X12. Along any sequence of commands none of which is a filament
    command, applied to a reachable state, the filaments stay the same
    set of ids, and each filament stays the same record but for its
    remaining weight, which never grows and stays at least zero: print
    jobs only ever use filament up. *)
Theorem filament_only_used_up (logs : list Log) (f : FSM) (id : string) :
  reachable f ->
  Forall (fun log => ~ command_on log EntityFilament) logs ->
  option_Forall2 filament_used
    (vFilaments (view f) !! id) (vFilaments (view (fst (run f logs))) !! id).
Proof.
  revert f. induction logs as [|log rest IH]; intros f Hf Hall.
  - change (fst (run f [])) with f.
    destruct (vFilaments (view f) !! id) as [x|] eqn:Hx; constructor.
    destruct (reachable_valid f Hf) as (_ & Hvf & _).
    destruct (Hvf _ _ Hx) as [Hok _].
    apply Filament_Validate_nil in Hok. apply filament_used_refl. lia.
  - inversion Hall as [|? ? Hlog Hrest]; subst. rewrite run_cons_fst.
    pose proof (reachable_Apply f log Hf) as Hf1.
    destruct (Apply_effect f log (reachable_wf f Hf)) as (_ & _ & Hv).
    pose proof (effect_filament_used (view f) log id (reachable_valid f Hf) Hlog) as H1.
    rewrite <- Hv in H1.
    specialize (IH (fst (Apply f log)) Hf1 Hrest).
    by apply (option_filament_used_trans _ _ _ H1 IH).
Qed.

End evolution.

Lemma job_evolution_witness :
  vPrintJobs (view (fst (Apply (json := RefJSON.codec) Examples.running
                           (Examples.delete_filament_log "f1")))) !! "j1"
    = Some (Examples.job_j1 400 StatusRunning) \/
  exists s, allowed_transition (PrintJob.Status (Examples.job_j1 400 StatusRunning)) s /\
            status_change (json := RefJSON.codec) (Examples.delete_filament_log "f1")
              "j1" s /\
            snd (Apply (json := RefJSON.codec) Examples.running
                   (Examples.delete_filament_log "f1")) = Return nil_err /\
            vPrintJobs (view (fst (Apply (json := RefJSON.codec) Examples.running
                                     (Examples.delete_filament_log "f1")))) !! "j1"
            = Some (PrintJob.set_Status (Examples.job_j1 400 StatusRunning) s).
Proof.
  apply (job_evolution (json := RefJSON.codec) Examples.running).
  - apply reachable_run, reachable_NewFSM.
  - vm_compute. reflexivity.
  - intros (cmd & Hc & Hty & _). vm_compute in Hc. injection Hc as <-. discriminate.
  - intros (cmd & Hc & Hty & _). vm_compute in Hc. injection Hc as <-. discriminate.
Defined.

Lemma filament_only_used_up_witness :
  option_Forall2 filament_used
    (vFilaments (view Examples.running) !! "f1")
    (vFilaments (view (fst (run (json := RefJSON.codec) Examples.running
                              [Examples.set_status "j1" StatusDone]))) !! "f1").
Proof.
  apply (filament_only_used_up (json := RefJSON.codec)).
  - apply reachable_run, reachable_NewFSM.
  - constructor; [|constructor].
    intros (cmd & Hc & Hty). vm_compute in Hc. injection Hc as <-. discriminate.
Defined.

(** ** Restore, and replay after it *)

Section restore.
Context {json : JSON}.

(** X13. [Restore] from a stream that decodes returns [nil] and replaces
    the three collections by the decoded ones, whatever the FSM held: an
    id that is not in the snapshot is gone, nothing is merged. The
    records that were in memory stay as they were, so a pointer a reader
    got before the call still reads the old record. [Restore] from a
    stream that does not decode returns the decode error and changes
    nothing. *)
Theorem Restore_replaces (g : FSM) (rc : string) :
  (forall s, decodeSnapshot rc = Decoded s ->
     snd (Restore g rc) = nil_err /\
     view (fst (Restore g rc)) =
       {| vPrinters := Printers s; vFilaments := Filaments s;
          vPrintJobs := PrintJobs s |} /\
     (forall a p, printerAt (heap g) !! a = Some p ->
                  printerAt (heap (fst (Restore g rc))) !! a = Some p) /\
     (forall a x, filamentAt (heap g) !! a = Some x ->
                  filamentAt (heap (fst (Restore g rc))) !! a = Some x) /\
     (forall a j, printJobAt (heap g) !! a = Some j ->
                  printJobAt (heap (fst (Restore g rc))) !! a = Some j)) /\
  (forall err, decodeSnapshot rc = DecodeError err ->
     Restore g rc = (g, Errorf ("failed to decode snapshot: " +:+ err))).
Proof.
  split.
  - intros s Hdec. destruct (Restore_view g rc s Hdec) as (He & _ & Hv).
    split; [done|]. split; [done|].
    unfold Restore. rewrite Hdec.
    destruct (place_records_spec (printerAt (heap g)) (Printers s)) as (_ & _ & Hp).
    destruct (place_records_spec (filamentAt (heap g)) (Filaments s)) as (_ & _ & Hx).
    destruct (place_records_spec (printJobAt (heap g)) (PrintJobs s)) as (_ & _ & Hj).
    destruct (place_records (printerAt (heap g)) (Printers s)) as [hp ps].
    destruct (place_records (filamentAt (heap g)) (Filaments s)) as [hf fs].
    destruct (place_records (printJobAt (heap g)) (PrintJobs s)) as [hj js].
    simpl in *. done.
  - intros err Hdec. by apply Restore_error.
Qed.


End restore.


Lemma Restore_replaces_witness :
  view (fst (Restore (json := RefJSON.codec) Examples.running Examples3.finished_bytes))
  = view Examples3.finished.
Proof.
  destruct (proj1 (Restore_replaces (json := RefJSON.codec) Examples.running
                     Examples3.finished_bytes)
              {| Printers := vPrinters (view Examples3.finished);
                 Filaments := vFilaments (view Examples3.finished);
                 PrintJobs := vPrintJobs (view Examples3.finished) |})
    as (_ & Hv & _).
  - vm_compute. reflexivity.
  - rewrite Hv. reflexivity.
Defined.

(** ** Persist and the sink *)

Section persist.
Context {json : JSON}.

(** X15. On a sink that is neither cancelled nor closed, [Persist]
    either cancels the sink or closes it, never both. It cancels, and
    returns an error, exactly when the snapshot does not marshal or the
    write fails. Otherwise the marshalled bytes are appended to what the
    sink held, the sink is closed, and [Persist] returns what [Close]
    returned. *)
Theorem Persist_sink (s : Snapshot) (sink : SnapshotSink) :
  cancelled sink = false -> closed sink = false ->
  closed (fst (Persist s sink)) = negb (cancelled (fst (Persist s sink))) /\
  (cancelled (fst (Persist s sink)) = true <->
   (exists err, marshalSnapshot s = DecodeError err) \/ write_err sink <> nil_err) /\
  (cancelled (fst (Persist s sink)) = true -> snd (Persist s sink) <> nil_err) /\
  (cancelled (fst (Persist s sink)) = false ->
   exists data,
     marshalSnapshot s = Decoded data /\
     written (fst (Persist s sink)) = written sink +:+ data /\
     snd (Persist s sink) = close_err sink).
Proof.
  intros Hc Hd. unfold Persist, sink_Write.
  destruct (marshalSnapshot s) as [data|err]; simpl.
  - destruct (write_err sink) as [e|] eqn:Hw; simpl; rewrite ?Hc, ?Hd.
    + repeat split; try done. intros _. by right.
    + repeat split; try done.
      * intros [[err Herr]|Hne]; done.
      * intros _. by exists data.
  - rewrite Hd. repeat split; try done. intros _. left. by exists err.
Qed.

End persist.

Lemma Persist_sink_witness :
  exists data,
    marshalSnapshot (JSON := RefJSON.codec)
      {| Printers := ∅; Filaments := ∅; PrintJobs := ∅ |} = Decoded data /\
    written (fst (Persist (json := RefJSON.codec)
                    {| Printers := ∅; Filaments := ∅; PrintJobs := ∅ |}
                    Examples3.empty_sink))
    = written Examples3.empty_sink +:+ data /\
    snd (Persist (json := RefJSON.codec)
           {| Printers := ∅; Filaments := ∅; PrintJobs := ∅ |} Examples3.empty_sink)
    = close_err Examples3.empty_sink.
Proof.
  apply (proj2 (proj2 (proj2 (Persist_sink (json := RefJSON.codec)
           {| Printers := ∅; Filaments := ∅; PrintJobs := ∅ |} Examples3.empty_sink
           eq_refl eq_refl)))).
  vm_compute. reflexivity.
Defined.

(** ** Create, then Delete *)

Section create_delete.
Context {json : JSON}.

Lemma view_eq (v w : View) :
  vPrinters v = vPrinters w -> vFilaments v = vFilaments w ->
  vPrintJobs v = vPrintJobs w -> v = w.
Proof. destruct v, w; simpl; by intros -> -> ->. Qed.

(** X16. On a reachable state, creating a printer whose id is free and
    then deleting that id returns [nil] twice and ends with the printers,
    filaments and print jobs the state had before; the same holds for a
    filament. *)
Theorem Create_then_Delete (f : FSM) (create delete : Log) :
  reachable f ->
  (forall p,
     printer_command create OpCreate p -> Printer.Validate p = nil_err ->
     vPrinters (view f) !! Printer.ID p = None ->
     delete_command delete EntityPrinter (Printer.ID p) ->
     snd (run f [create; delete]) = [Return nil_err; Return nil_err] /\
     view (fst (run f [create; delete])) = view f) /\
  (forall x,
     filament_command create OpCreate x -> Filament.Validate x = nil_err ->
     vFilaments (view f) !! Filament.ID x = None ->
     delete_command delete EntityFilament (Filament.ID x) ->
     snd (run f [create; delete]) = [Return nil_err; Return nil_err] /\
     view (fst (run f [create; delete])) = view f).
Proof.
  intros Hf. pose proof (reachable_Apply f create Hf) as Hf1.
  rewrite !run_cons_snd, !run_cons_fst.
  change (fst (run (fst (Apply (fst (Apply f create)) delete)) []))
    with (fst (Apply (fst (Apply f create)) delete)).
  change (snd (run (fst (Apply (fst (Apply f create)) delete)) []))
    with (@nil outcome).
  split.
  - intros p (c1 & Hc1 & Hty1 & Hop1 & Hp) Hok Hfree (c2 & Hc2 & Hty2 & Hop2 & Hid).
    destruct (Apply_nil_by_effect f create
                {| vPrinters := <[Printer.ID p := p]> (vPrinters (view f));
                   vFilaments := vFilaments (view f);
                   vPrintJobs := vPrintJobs (view f) |} Hf) as [Ho1 Hv1].
    { generalize (view f). intros v. unfold effect. rewrite Hc1, Hty1; simpl.
      unfold effectPrinterCommand. rewrite Hop1, Hp; simpl. by rewrite Hok. }
    destruct (Apply_nil_by_effect (fst (Apply f create)) delete (view f) Hf1)
      as [Ho2 Hv2].
    { rewrite Hv1. unfold effect. rewrite Hc2, Hty2; simpl.
      unfold effectPrinterCommand. rewrite Hop2, Hid; simpl.
      rewrite lookup_insert_eq. f_equal.
      apply view_eq; simpl; try done. by apply delete_insert_id. }
    by rewrite Ho1, Ho2, Hv2.
  - intros x (c1 & Hc1 & Hty1 & Hop1 & Hx) Hok Hfree (c2 & Hc2 & Hty2 & Hop2 & Hid).
    destruct (Apply_nil_by_effect f create
                {| vPrinters := vPrinters (view f);
                   vFilaments := <[Filament.ID x := x]> (vFilaments (view f));
                   vPrintJobs := vPrintJobs (view f) |} Hf) as [Ho1 Hv1].
    { generalize (view f). intros v. unfold effect. rewrite Hc1, Hty1; simpl.
      unfold effectFilamentCommand. rewrite Hop1, Hx; simpl. by rewrite Hok. }
    destruct (Apply_nil_by_effect (fst (Apply f create)) delete (view f) Hf1)
      as [Ho2 Hv2].
    { rewrite Hv1. unfold effect. rewrite Hc2, Hty2; simpl.
      unfold effectFilamentCommand. rewrite Hop2, Hid; simpl.
      rewrite lookup_insert_eq. f_equal.
      apply view_eq; simpl; try done. by apply delete_insert_id. }
    by rewrite Ho1, Ho2, Hv2.
Qed.

End create_delete.

Lemma Create_then_Delete_witness :
  view (fst (run (json := RefJSON.codec) Examples.running
               [Examples.create_filament
                  (Filament.Make "f2" "ABS" "Black" (int_of_Z 750) (int_of_Z 750));
                Examples.delete_filament_log "f2"]))
  = view Examples.running.
Proof.
  apply (proj2 (Create_then_Delete (json := RefJSON.codec) Examples.running
                  (Examples.create_filament
                     (Filament.Make "f2" "ABS" "Black" (int_of_Z 750) (int_of_Z 750)))
                  (Examples.delete_filament_log "f2")
                  ltac:(apply reachable_run, reachable_NewFSM))
           (Filament.Make "f2" "ABS" "Black" (int_of_Z 750) (int_of_Z 750))).
  - eexists. split; [vm_compute; reflexivity|]. repeat split; vm_compute; reflexivity.
  - reflexivity.
  - vm_compute. reflexivity.
  - eexists. split; [vm_compute; reflexivity|]. repeat split; vm_compute; reflexivity.
Defined.

(** ** The status table of package models *)

(** X17. Every step [ValidateTransition] accepts starts and ends in one
    of the four statuses [PrintJob.Validate] knows, changes the status,
    never leads to Queued, and keeps a valid job valid. *)
Theorem transitions_within_statuses (j : PrintJob.t) (s : string) :
  PrintJob.ValidateTransition j s = nil_err ->
  index_bool PrintJob.validStatuses (PrintJob.Status j) = true /\
  index_bool PrintJob.validStatuses s = true /\
  s <> PrintJob.Status j /\ s <> StatusQueued /\
  (PrintJob.Validate j = nil_err ->
   PrintJob.Validate (PrintJob.set_Status j s) = nil_err).
Proof.
  intros Ht. pose proof Ht as Hal. apply ValidateTransition_nil in Hal.
  split; [|split; [|split; [|split]]].
  - apply validStatuses_spec. unfold allowed_transition in Hal. tauto.
  - apply validStatuses_spec. unfold allowed_transition in Hal. tauto.
  - intros ->. destruct (not_allowed_transitions (PrintJob.Status j)) as [Hn _].
    by apply Hn.
  - intros ->. unfold allowed_transition in Hal.
    destruct Hal as [[_ H]|[[_ H]|[[_ H]|[_ H]]]]; discriminate.
  - intros Hok. by apply set_Status_valid.
Qed.

Lemma transitions_within_statuses_witness :
  index_bool PrintJob.validStatuses
    (PrintJob.Status (Examples.job_j1 400 StatusRunning)) = true /\
  index_bool PrintJob.validStatuses StatusDone = true /\
  StatusDone <> PrintJob.Status (Examples.job_j1 400 StatusRunning) /\
  StatusDone <> StatusQueued /\
  (PrintJob.Validate (Examples.job_j1 400 StatusRunning) = nil_err ->
   PrintJob.Validate
     (PrintJob.set_Status (Examples.job_j1 400 StatusRunning) StatusDone) = nil_err).
Proof.
  apply (transitions_within_statuses (Examples.job_j1 400 StatusRunning) StatusDone).
  reflexivity.
Defined.

(** X18. The life of a job is short: Done and Cancelled are final (after
    an accepted step to either, [ValidateTransition] refuses every
    request), and no job takes three accepted steps in a row. *)
Theorem transitions_end (j : PrintJob.t) (s1 : string) :
  PrintJob.ValidateTransition j s1 = nil_err ->
  ((s1 = StatusDone \/ s1 = StatusCancelled) ->
   forall s2, PrintJob.ValidateTransition (PrintJob.set_Status j s1) s2 <> nil_err) /\
  (forall s2 s3,
     PrintJob.ValidateTransition (PrintJob.set_Status j s1) s2 = nil_err ->
     PrintJob.ValidateTransition
       (PrintJob.set_Status (PrintJob.set_Status j s1) s2) s3 <> nil_err).
Proof.
  intros H1. apply ValidateTransition_nil in H1. split.
  - intros Hs s2 H2. apply ValidateTransition_nil in H2. simpl in H2.
    destruct (not_allowed_transitions s2) as (_ & Hd & Hc & _).
    destruct Hs as [-> | ->]; [by apply Hd|by apply Hc].
  - intros s2 s3 H2 H3. apply ValidateTransition_nil in H2, H3. simpl in H2, H3.
    unfold allowed_transition, StatusQueued, StatusRunning, StatusDone,
      StatusCancelled in *.
    intuition congruence.
Qed.

Lemma transitions_end_witness :
  PrintJob.ValidateTransition
    (PrintJob.set_Status (Examples.job_j1 400 StatusRunning) StatusDone) StatusRunning
  <> nil_err.
Proof.
  apply (proj1 (transitions_end (Examples.job_j1 400 StatusRunning) StatusDone eq_refl)).
  by left.
Defined.

(** ** Payloads that do not decode *)

Section decode_errors.
Context {json : JSON}.

(** X19. A command that does not decode, or whose payload does not
    decode into what its entity kind and operation ask for (a printer or
    filament record for Create and Update, a print job record for a
    PrintJob Create, a status change for a PrintJob Update, an id for
    every Delete), is answered by the matching "failed to unmarshal"
    error with the decoder's message, and the state is unchanged. The
    payload is decoded before the store is consulted. A PrintJob Update
    that decodes but names a job that is not in the store is answered by
    "print job not found", whatever status it asks for. *)
Theorem Apply_decode_errors (f : FSM) (log : Log) :
  (forall err, unmarshalCommand (Data log) = DecodeError err ->
     Apply f log = (f, Return (Errorf ("failed to unmarshal command: " +:+ err)))) /\
  (forall cmd err, unmarshalCommand (Data log) = Decoded cmd ->
     (EntityType cmd = EntityPrinter -> Op cmd = OpCreate \/ Op cmd = OpUpdate ->
      unmarshalPrinter (Payload cmd) = DecodeError err ->
      Apply f log = (f, Return (Errorf ("failed to unmarshal printer: " +:+ err)))) /\
     (EntityType cmd = EntityFilament -> Op cmd = OpCreate \/ Op cmd = OpUpdate ->
      unmarshalFilament (Payload cmd) = DecodeError err ->
      Apply f log = (f, Return (Errorf ("failed to unmarshal filament: " +:+ err)))) /\
     (EntityType cmd = EntityPrintJob -> Op cmd = OpCreate ->
      unmarshalPrintJob (Payload cmd) = DecodeError err ->
      Apply f log = (f, Return (Errorf ("failed to unmarshal print job: " +:+ err)))) /\
     (EntityType cmd = EntityPrintJob -> Op cmd = OpUpdate ->
      unmarshalStatusChange (Payload cmd) = DecodeError err ->
      Apply f log =
        (f, Return (Errorf ("failed to unmarshal status change: " +:+ err)))) /\
     (EntityType cmd = EntityPrinter \/ EntityType cmd = EntityFilament
      \/ EntityType cmd = EntityPrintJob ->
      Op cmd = OpDelete ->
      unmarshalString (Payload cmd) = DecodeError err ->
      Apply f log = (f, Return (Errorf ("failed to unmarshal ID: " +:+ err))))) /\
  (forall id s, status_change log id s -> GetPrintJob (FSM_Store f) id = None ->
     Apply f log = (f, Return (Errorf ("print job not found: " +:+ id)))).
Proof.
  split; [|split].
  - intros err Hc. unfold Apply. by rewrite Hc.
  - intros cmd err Hc. unfold Apply. rewrite Hc.
    split; [|split; [|split; [|split]]].
    + intros Hty Hop Hp. rewrite Hty; simpl. unfold applyPrinterCommand.
      destruct Hop as [Hop|Hop]; rewrite Hop, Hp; done.
    + intros Hty Hop Hp. rewrite Hty; simpl. unfold applyFilamentCommand.
      destruct Hop as [Hop|Hop]; rewrite Hop, Hp; done.
    + intros Hty Hop Hp. rewrite Hty; simpl. unfold applyPrintJobCommand.
      rewrite Hop, Hp. done.
    + intros Hty Hop Hp. rewrite Hty; simpl. unfold applyPrintJobCommand.
      rewrite Hop, Hp. done.
    + intros [Hty|[Hty|Hty]] Hop Hp; rewrite Hty; simpl.
      * unfold applyPrinterCommand. rewrite Hop, Hp. done.
      * unfold applyFilamentCommand. rewrite Hop, Hp. done.
      * unfold applyPrintJobCommand. rewrite Hop, Hp. done.
  - intros id s (cmd & Hc & Hty & Hop & Hsc) Hid.
    unfold GetPrintJob, FSM_Store in Hid.
    unfold Apply. rewrite Hc, Hty; simpl.
    unfold applyPrintJobCommand. rewrite Hop, Hsc; simpl. by rewrite Hid.
Qed.

End decode_errors.

(** Bytes that are no JSON text. *)
Lemma Apply_decode_errors_witness :
  Apply (json := RefJSON.codec) Examples.running {| Data := "create printer p1" |}
  = (Examples.running, Return (Errorf "failed to unmarshal command: invalid JSON")).
Proof.
  apply (proj1 (Apply_decode_errors (json := RefJSON.codec) Examples.running
                  {| Data := "create printer p1" |})).
  vm_compute. reflexivity.
Defined.
